(** * ExcelParser (src/js/excel-parser.js): row-to-record mapping and queries

    A shallow embedding of the part of [ExcelParser] that runs once the
    spreadsheet decoder has produced [rawData] (an array of rows, each an
    array of cell values): [validateData], [parseGates], [parseGateRow],
    [getCellValue], [filterByMod] and [getSummary].

    Modelling conventions.
    - A JavaScript value is a [JsVal].  Numbers are [Num]: [NaN] or an exact
      rational [Fin q]; [-0] and [0] are the same number here, which agrees
      with [===] and with truthiness, the only observations the parser makes.
      Exact rationals agree with IEEE doubles on the integers below 2^53; the
      statements about [parseInt] carry that bound.
    - Strings are sequences of 8-bit characters; only ASCII characters are
      given a meaning by [parseInt] (white space, sign, digits).
    - A row is the list of its cells; reading past its end gives
      [undefined], as array indexing does.
    - A [throw] is the [Throw] case of [Completion]; [console.*] calls have
      no effect on the parser's state and are left out.
    - [summary.statusCount], an object literal used as a map, is the [gmap]
      of its own properties; reading a key it does not own falls back on
      [Object.prototype], as property lookup does.  The conversion of a
      number to a property key is a parameter ([numToString]). *)

From Stdlib Require Import Ascii String QArith Qround Sorted.
From stdpp Require Import gmap strings list fin_maps.

Local Open Scope Z_scope.
Local Open Scope string_scope.
Local Open Scope nat_scope.
Local Open Scope list_scope.

(** ** JavaScript values *)

Inductive Num : Type :=
| NaN
| Fin (q : Q).

Inductive JsVal : Type :=
| JUndefined
| JNull
| JBool (b : bool)
| JNum (n : Num)
| JStr (s : string).

Definition numOfZ (z : Z) : Num := Fin (inject_Z z).

(** ToBoolean. *)
Definition truthy (v : JsVal) : bool :=
  match v with
  | JUndefined | JNull => false
  | JBool b => b
  | JNum NaN => false
  | JNum (Fin q) => negb (Qeq_bool q 0)
  | JStr s => negb (String.eqb s "")
  end.

Definition numEq (a b : Num) : bool :=
  match a, b with
  | Fin x, Fin y => Qeq_bool x y
  | _, _ => false
  end.

(** [a === b] *)
Definition strictEq (a b : JsVal) : bool :=
  match a, b with
  | JUndefined, JUndefined => true
  | JNull, JNull => true
  | JBool x, JBool y => Bool.eqb x y
  | JNum x, JNum y => numEq x y
  | JStr x, JStr y => String.eqb x y
  | _, _ => false
  end.

(** [a || b] *)
Definition jsOr (a b : JsVal) : JsVal := if truthy a then a else b.

(** ** Exceptions *)

Inductive JsError : Type :=
| DataEmpty   (* new Error('데이터가 비어있습니다.') thrown by validateData *)
| TypeError.  (* calling a property that is not a function *)

Inductive Completion (A : Type) : Type :=
| Normal (a : A)
| Throw (e : JsError).
Arguments Normal {A} a.
Arguments Throw {A} e.

Definition cbind {A B} (c : Completion A) (k : A → Completion B) : Completion B :=
  match c with
  | Normal a => k a
  | Throw e => Throw e
  end.

Notation "'let!' x ':=' c 'in' k" := (cbind c (fun x => k))
  (at level 10, x name, c at level 100, k at level 200).

(** ** String primitives used by [parseGateRow] *)

(** [s.replace(c, '')] for a one-character pattern: the first occurrence
    of [c] is removed, the rest of the string is kept. *)
Fixpoint replaceFirst (c : ascii) (s : string) : string :=
  match s with
  | EmptyString => EmptyString
  | String a s' => if Ascii.eqb a c then s' else String a (replaceFirst c s')
  end.

(** [v?.replace('G', '')]: [undefined] on null and undefined, a [TypeError]
    on a number or a boolean (they have no [replace] method). *)
Definition optReplaceG (v : JsVal) : Completion JsVal :=
  match v with
  | JUndefined | JNull => Normal JUndefined
  | JStr s => Normal (JStr (replaceFirst "G"%char s))
  | JNum _ | JBool _ => Throw TypeError
  end.

(** The ASCII members of WhiteSpace and LineTerminator (TAB, LF, VT, FF,
    CR, SP).  The other members are not ASCII; the statements that consult
    [parseInt] are about ASCII strings ([asciiOnly]). *)
Definition isWhiteSpace (a : ascii) : bool :=
  let n := nat_of_ascii a in
  (Nat.leb 9 n && Nat.leb n 13) || Nat.eqb n 32.

Fixpoint trimStart (s : string) : string :=
  match s with
  | String a s' => if isWhiteSpace a then trimStart s' else s
  | EmptyString => EmptyString
  end.

(** Value of a character as a digit, for radices up to 36. *)
Definition digitOf (a : ascii) : option Z :=
  let n := nat_of_ascii a in
  if Nat.leb 48 n && Nat.leb n 57 then Some (Z.of_nat (n - 48))
  else if Nat.leb 97 n && Nat.leb n 122 then Some (Z.of_nat (n - 87))
  else if Nat.leb 65 n && Nat.leb n 90 then Some (Z.of_nat (n - 55))
  else None.

Definition digitIn (radix : Z) (a : ascii) : option Z :=
  match digitOf a with
  | Some d => if Z.ltb d radix then Some d else None
  | None => None
  end.

(** The longest prefix of radix-[radix] digits, read left to right;
    [None] when that prefix is empty. *)
Fixpoint parseDigits (radix : Z) (s : string) (acc : option Z) : option Z :=
  match s with
  | EmptyString => acc
  | String a s' =>
      match digitIn radix a with
      | Some d => parseDigits radix s' (Some (radix * default 0%Z acc + d)%Z)
      | None => acc
      end
  end.

(** [parseInt(s)] with no radix argument, on an ASCII string.  The result
    is the mathematical integer read, which is the number the program gets
    when its magnitude is below 2^53 (above, the program gets the nearest
    double or an infinity); the statements carry that bound. *)
Definition parseInt (s : string) : Num :=
  let s1 := trimStart s in
  let '(sign, s2) :=
    match s1 with
    | String "-"%char r => ((-1)%Z, r)
    | String "+"%char r => (1%Z, r)
    | _ => (1%Z, s1)
    end in
  let '(radix, s3) :=
    match s2 with
    | String "0"%char (String x r) =>
        if Ascii.eqb x "x"%char || Ascii.eqb x "X"%char then (16%Z, r) else (10%Z, s2)
    | _ => (10%Z, s2)
    end in
  match parseDigits radix s3 None with
  | Some n => numOfZ (sign * n)
  | None => NaN
  end.

(** [n / 20], the exact quotient.  For an integer [n] of magnitude below
    2^53 the double quotient of the program has the same [Math.ceil]. *)
Definition numDiv20 (n : Num) : Num :=
  match n with
  | NaN => NaN
  | Fin q => Fin (q / 20)
  end.

(** [Math.ceil(n)] *)
Definition mathCeil (n : Num) : Num :=
  match n with
  | NaN => NaN
  | Fin q => numOfZ (Qceiling q)
  end.

(** ** Rows, cells and gate records *)

(** A decoded row: the array of its cell values. *)
Definition Row : Type := list JsVal.

(** [row[colIndex]] *)
Definition cellAt (row : Row) (colIndex : nat) : JsVal :=
  default JUndefined (row !! colIndex).

(** [getCellValue(row, colIndex)] *)
Definition getCellValue (row : Row) (colIndex : nat) : JsVal :=
  let value := cellAt row colIndex in
  if strictEq value JNull || strictEq value JUndefined || strictEq value (JStr "")
  then JNull
  else if strictEq value (JStr "B") then JStr "B"
  else value.

(** The object literal built at the end of [parseGateRow].  The field
    [mod] of the source is [mod_] here, and a local [mod] is [mod'] ([mod]
    is a reserved notation). *)
Record Gate : Type := mkGate {
  mcn_no : JsVal;
  serial_no2 : JsVal;
  rev_flag : JsVal;
  wo_dtl_id : JsVal;
  fo_desc : JsVal;
  sts : JsVal;
  working_rate : JsVal;
  start_dt : JsVal;
  end_dt : JsVal;
  plan_start_dt : JsVal;
  plan_end_dt : JsVal;
  work_st : JsVal;
  worker_id : JsVal;
  worker_nm : JsVal;
  skirt_qty : JsVal;
  proj_color : JsVal;
  cur_time : JsVal;
  plant : JsVal;
  mod_ : Num;
  gateNumber : Num;
  jointStatuses : list JsVal;
  skirtStatuses : list JsVal;
  rowIndex : nat;
  isReverse : bool
}.

(** [for (let i = from; i < from + count; i++) acc.push(getCellValue(row, i) || 'B')] *)
Fixpoint pushStatuses (row : Row) (from count : nat) (acc : list JsVal) : list JsVal :=
  match count with
  | O => acc
  | S count' =>
      pushStatuses row (S from) count' (acc ++ [jsOr (getCellValue row from) (JStr "B")])
  end.

(** [arr.slice(1)] *)
Definition slice1 {A} (arr : list A) : list A := drop 1 arr.

(** [parseInt(mcn_no?.replace('G', '') || '0')] *)
Definition parseGateNumber (mcn_no : JsVal) : Completion Num :=
  let! replaced := optReplaceG mcn_no in
  match jsOr replaced (JStr "0") with
  | JStr s => Normal (parseInt s)
  | _ => Normal NaN  (* not reached: [replaced] is undefined or a string *)
  end.

(** [parseGateRow(row, index)] *)
Definition parseGateRow (row : Row) (index : nat) : Completion Gate :=
  let mcn_no := getCellValue row 0 in
  let serial_no2 := getCellValue row 1 in
  let rev_flag := jsOr (getCellValue row 2) (JNum (numOfZ 0)) in
  let wo_dtl_id := getCellValue row 3 in
  let fo_desc := getCellValue row 4 in
  let sts := getCellValue row 5 in
  let working_rate := getCellValue row 6 in
  let start_dt := getCellValue row 7 in
  let end_dt := getCellValue row 8 in
  let plan_start_dt := getCellValue row 9 in
  let plan_end_dt := getCellValue row 10 in
  let work_st := getCellValue row 11 in
  let worker_id := getCellValue row 12 in
  let worker_nm := getCellValue row 13 in
  let skirt_qty := jsOr (getCellValue row 14) (JNum (numOfZ 0)) in
  let proj_color := getCellValue row 15 in
  let cur_time := getCellValue row 16 in
  let jointStatuses := pushStatuses row 17 (37 - 17) [] in
  let plant := getCellValue row 37 in
  let skirtStatuses := pushStatuses row 38 (58 - 38) [] in
  let! gateNumber := parseGateNumber mcn_no in
  let mod' := mathCeil (numDiv20 gateNumber) in
  let jointStatuses :=
    if strictEq rev_flag (JNum (numOfZ 1))
    then
      let joints := slice1 jointStatuses in
      let joints := reverse joints in
      JNull :: joints
    else jointStatuses in
  Normal {|
    mcn_no := mcn_no;
    serial_no2 := serial_no2;
    rev_flag := rev_flag;
    wo_dtl_id := wo_dtl_id;
    fo_desc := fo_desc;
    sts := sts;
    working_rate := working_rate;
    start_dt := start_dt;
    end_dt := end_dt;
    plan_start_dt := plan_start_dt;
    plan_end_dt := plan_end_dt;
    work_st := work_st;
    worker_id := worker_id;
    worker_nm := worker_nm;
    skirt_qty := skirt_qty;
    proj_color := proj_color;
    cur_time := cur_time;
    plant := plant;
    mod_ := mod';
    gateNumber := gateNumber;
    jointStatuses := jointStatuses;
    skirtStatuses := skirtStatuses;
    rowIndex := index;
    isReverse := strictEq rev_flag (JNum (numOfZ 1))
  |}.

(** ** The parser object *)

(** The instance fields of [ExcelParser]; [rawData = None] is the initial
    [null]. *)
Record ExcelParser : Type := mkParser {
  rawData : option (list Row);
  gates : list Gate;
  isLoaded : bool
}.

(** [new ExcelParser()] *)
Definition newParser : ExcelParser :=
  {| rawData := None; gates := []; isLoaded := false |}.

(** [validateData()]: throws when [rawData] is missing or has no row; a
    data-row count other than 60 only logs a warning. *)
Definition validateData (this : ExcelParser) : Completion unit :=
  match rawData this with
  | None => Throw DataEmpty
  | Some rows => if Nat.eqb (length rows) 0 then Throw DataEmpty else Normal tt
  end.

(** The callback of [dataRows.map]: a row whose parse throws becomes
    [null] ([None]). *)
Definition parseOrNull (index : nat) (row : Row) : option Gate :=
  match parseGateRow row index with
  | Normal gate => Some gate
  | Throw _ => None
  end.

(** [arr.filter(gate => gate !== null)] *)
Fixpoint filterNotNull {A} (arr : list (option A)) : list A :=
  match arr with
  | [] => []
  | Some a :: arr' => a :: filterNotNull arr'
  | None :: arr' => filterNotNull arr'
  end.

(** [parseGates()] *)
Definition parseGates (this : ExcelParser) : ExcelParser :=
  let dataRows := slice1 (default [] (rawData this)) in
  {| rawData := rawData this;
     gates := filterNotNull (imap parseOrNull dataRows);
     isLoaded := isLoaded this |}.

(** [loadExcel(file)] from step 4 on, [table] being what the decoder
    returned for the file.  The result is the parser after the call and
    the call's completion ([catch] logs and rethrows). *)
Definition loadExcel (this : ExcelParser) (table : list Row)
  : ExcelParser * Completion (list Gate) :=
  let this1 := {| rawData := Some table; gates := gates this; isLoaded := isLoaded this |} in
  match validateData this1 with
  | Throw e => (this1, Throw e)
  | Normal _ =>
      let this2 := parseGates this1 in
      let this3 := {| rawData := rawData this2; gates := gates this2; isLoaded := true |} in
      (this3, Normal (gates this3))
  end.

(** [filterByMod(mod)]; a call without argument passes [undefined]. *)
Definition filterByMod (this : ExcelParser) (mod' : JsVal) : list Gate :=
  if negb (truthy mod') then gates this
  else List.filter (fun gate => strictEq (JNum (mod_ gate)) mod') (gates this).

(** [getGateByNumber(mcn_no)]: [find] gives the first gate whose [mcn_no]
    is strictly equal to the argument, or [undefined], which [|| null]
    turns into [null] ([None]); a gate object is always truthy. *)
Definition getGateByNumber (this : ExcelParser) (id : JsVal) : option Gate :=
  List.find (fun gate => strictEq (mcn_no gate) id) (gates this).

(** ** [getSummary] *)

(** What a property of [summary.statusCount] can hold or yield.  The
    object starts as the literal [{}], so a key it does not own is looked
    up on [Object.prototype]. *)
Inductive PropVal : Type :=
| PNumber (n : nat)   (* a count *)
| PInherited          (* a function or object found on Object.prototype *)
| PText.              (* a string made by [+] on a non-number *)

(** The property names every object inherits from [Object.prototype]. *)
Definition objectPrototypeKeys : list string :=
  [ "constructor"; "hasOwnProperty"; "isPrototypeOf"; "propertyIsEnumerable";
    "toLocaleString"; "toString"; "valueOf"; "__defineGetter__";
    "__defineSetter__"; "__lookupGetter__"; "__lookupSetter__"; "__proto__" ].

Definition inheritedKey (k : string) : bool :=
  existsb (String.eqb k) objectPrototypeKeys.

(** [obj[k]]; [None] is [undefined]. *)
Definition getProp (obj : gmap string PropVal) (k : string) : option PropVal :=
  match obj !! k with
  | Some v => Some v
  | None => if inheritedKey k then Some PInherited else None
  end.

(** [(x || 0) + 1]: a number is incremented; a function, an object or a
    string is truthy and [+] concatenates. *)
Definition orZeroPlusOne (x : option PropVal) : PropVal :=
  match x with
  | None => PNumber 1
  | Some (PNumber n) => PNumber (n + 1)
  | Some PInherited | Some PText => PText
  end.

(** [obj[k] = v] for a primitive [v]: an own property is written, except
    that the [__proto__] setter ignores a primitive. *)
Definition setProp (obj : gmap string PropVal) (k : string) (v : PropVal)
  : gmap string PropVal :=
  if String.eqb k "__proto__" then obj else <[k := v]> obj.

Record Summary : Type := mkSummary {
  totalGates : nat;
  mod1 : nat;
  mod2 : nat;
  mod3 : nat;
  statusCount : gmap string PropVal;
  reverseCount : nat
}.

(** The two object shapes [getSummary] returns. *)
Inductive SummaryResult : Type :=
| ErrorObject (error : string)   (* { error: ... } *)
| SummaryObject (summary : Summary).

Section WithNumberToString.

(** Number::toString, used when a numeric status becomes a property key. *)
Variable numToString : Num → string.

(** ToPropertyKey on the primitives a cell can hold. *)
Definition toPropertyKey (v : JsVal) : string :=
  match v with
  | JStr s => s
  | JNum n => numToString n
  | JBool true => "true"
  | JBool false => "false"
  | JNull => "null"
  | JUndefined => "undefined"
  end.

(** The key a gate is counted under: [gate.sts || 'Unknown']. *)
Definition statusKey (gate : Gate) : string :=
  toPropertyKey (jsOr (sts gate) (JStr "Unknown")).

(** The body of the [forEach] callback. *)
Definition countStatus (obj : gmap string PropVal) (gate : Gate) : gmap string PropVal :=
  let status := statusKey gate in
  setProp obj status (orZeroPlusOne (getProp obj status)).

(** [getSummary()] *)
Definition getSummary (this : ExcelParser) : SummaryResult :=
  if negb (isLoaded this) then ErrorObject "데이터가 로드되지 않았습니다."
  else
    SummaryObject {|
      totalGates := length (gates this);
      mod1 := length (filterByMod this (JNum (numOfZ 1)));
      mod2 := length (filterByMod this (JNum (numOfZ 2)));
      mod3 := length (filterByMod this (JNum (numOfZ 3)));
      statusCount := foldl countStatus ∅ (gates this);
      reverseCount := length (List.filter isReverse (gates this))
    |}.

End WithNumberToString.

(** ** Vocabulary of the statements *)

(** The value a status slot takes from the cell at column [c]:
    [getCellValue(row, c) || 'B']. *)
Definition slotOf (row : Row) (c : nat) : JsVal :=
  jsOr (getCellValue row c) (JStr "B").

(** The data rows of a table: everything after the header. *)
Definition dataRowsOf (table : list Row) : list Row := slice1 table.

(** The column a slot of [jointStatuses] was read from: the reverse rule
    moves the cell of position [20 - k] to position [k] and fills position
    0 with a constant, which has no source cell. *)
Definition jointSource (gate : Gate) (k : nat) : option nat :=
  if isReverse gate
  then (if Nat.eqb k 0 then None else Some (17 + (20 - k)))
  else Some (17 + k).

(** The column a slot of [skirtStatuses] was read from. *)
Definition skirtSource (k : nat) : nat := 38 + k.





(** The sum of the per-status counts; [None] when some entry is not a
    number. *)
Definition addCount (_ : string) (v : PropVal) (acc : option nat) : option nat :=
  match v, acc with
  | PNumber n, Some a => Some (n + a)
  | _, _ => None
  end.

Definition countsSum (obj : gmap string PropVal) : option nat :=
  map_fold addCount (Some 0) obj.

(** ** Sample tables and further vocabulary *)

Definition sampleHeader : Row :=
  [JStr "mcn_no"; JStr "serial_no2"; JStr "rev_flag"].

(** Gate G01, reverse flag the number 1, joint cells "A", 0, "C" at columns
    17 to 19, and nothing after column 19. *)
Definition sampleReverseRow : Row :=
  [JStr "G01"; JStr "SEC-1"; JNum (numOfZ 1)] ++ replicate 14 JNull
  ++ [JStr "A"; JNum (numOfZ 0); JStr "C"].

(** The same row with the reverse flag the string "1". *)
Definition sampleStringFlagRow : Row :=
  [JStr "G21"; JStr "SEC-2"; JStr "1"] ++ replicate 14 JNull
  ++ [JStr "A"; JNum (numOfZ 0); JStr "C"].

(** The record [parseGateRow] returns for a row it accepts. *)
Definition parsedOf (row : Row) (index : nat)
  : match parseGateRow row index with Normal _ => Gate | Throw _ => unit end :=
  match parseGateRow row index as c
        return match c with Normal _ => Gate | Throw _ => unit end with
  | Normal g => g
  | Throw _ => tt
  end.

Definition sampleReverseGate : Gate := Eval vm_compute in parsedOf sampleReverseRow 0.
Definition sampleStringFlagGate : Gate := Eval vm_compute in parsedOf sampleStringFlagRow 1.

Definition sampleTable : list Row :=
  [sampleHeader; sampleReverseRow; sampleStringFlagRow].

(** A cell the decoder left empty: the empty string, [null] or
    [undefined]. *)
Definition emptyCell (v : JsVal) : Prop :=
  v = JStr "" ∨ v = JNull ∨ v = JUndefined.

(** The scalar field of a record read from column [c]. *)
Definition scalarField (g : Gate) (c : nat) : option JsVal :=
  match c with
  | 0 => Some (mcn_no g)
  | 1 => Some (serial_no2 g)
  | 2 => Some (rev_flag g)
  | 3 => Some (wo_dtl_id g)
  | 4 => Some (fo_desc g)
  | 5 => Some (sts g)
  | 6 => Some (working_rate g)
  | 7 => Some (start_dt g)
  | 8 => Some (end_dt g)
  | 9 => Some (plan_start_dt g)
  | 10 => Some (plan_end_dt g)
  | 11 => Some (work_st g)
  | 12 => Some (worker_id g)
  | 13 => Some (worker_nm g)
  | 14 => Some (skirt_qty g)
  | 15 => Some (proj_color g)
  | 16 => Some (cur_time g)
  | 37 => Some (plant g)
  | _ => None
  end.

(** The group indices of the records built from a table with the single
    data row [[id]]. *)
Definition groupIndexOfId (id : JsVal) : list Num :=
  match snd (loadExcel newParser [sampleHeader; [id]]) with
  | Normal gs => mod_ <$> gs
  | Throw _ => []
  end.

(** A row whose gate-number cell holds a number makes [replace] throw; it
    is dropped and the rows around it are kept, in order. *)
Definition sampleBadRow : Row := [JNum (numOfZ 5); JStr "SEC-9"].

(** Three records with statuses "S", "S" and none. *)
Definition sampleStatusTable : list Row :=
  [ sampleHeader;
    [JStr "G01"; JNull; JNull; JNull; JNull; JStr "S"];
    [JStr "G02"; JNull; JNull; JNull; JNull; JStr "S"];
    [JStr "G03"] ].

(** One record whose status cell holds the text "constructor". *)
Definition inheritedStatusTable : list Row :=
  [ sampleHeader;
    [JStr "G01"; JNull; JNull; JNull; JNull; JStr "constructor"] ].

(** ** Vocabulary of the further properties *)

(** Whether the gate-number cell (column 0) of a row is one [replace] can
    be called on, or is missing: anything but a number or a boolean. *)
Definition idCellParses (row : Row) : bool :=
  match cellAt row 0 with
  | JNum _ | JBool _ => false
  | _ => true
  end.

(** The parser after loading the given tables in turn, starting from a
    new parser; a load that throws leaves the parser as [loadExcel] left
    it. *)
Definition loadAll (tables : list (list Row)) : ExcelParser :=
  foldl (λ this table, fst (loadExcel this table)) newParser tables.

Definition nonEmptyTable (table : list Row) : bool :=
  negb (Nat.eqb (length table) 0).

(** The last table of a sequence that has at least one row. *)
Definition lastNonEmpty (tables : list (list Row)) : option (list Row) :=
  last (List.filter nonEmptyTable tables).

(** The number of gates counted under the key [k]. *)
Definition countKey (numToString : Num → string) (k : string) (gs : list Gate) : nat :=
  length (List.filter (λ g, String.eqb (statusKey numToString g) k) gs).

(** A group index that is 1, 2 or 3. *)
Definition inGroups123 (n : Num) : bool :=
  numEq n (numOfZ 1) || numEq n (numOfZ 2) || numEq n (numOfZ 3).


(** * Properties *)

(** ** Status slots *)

Lemma pushStatuses_spec (row : Row) (from count : nat) (acc : list JsVal) :
  pushStatuses row from count acc = acc ++ (slotOf row <$> seq from count).
Proof.
  revert from acc. induction count as [|count IH]; intros from acc; simpl.
  - by rewrite app_nil_r.
  - rewrite IH, <- app_assoc. reflexivity.
Qed.

Lemma pushStatuses_length (row : Row) (from count : nat) :
  length (pushStatuses row from count []) = count.
Proof. rewrite pushStatuses_spec. simpl. by rewrite length_fmap, length_seq. Qed.

Lemma pushStatuses_lookup (row : Row) (from count k : nat) :
  k < count → pushStatuses row from count [] !! k = Some (slotOf row (from + k)).
Proof.
  intros Hk. rewrite pushStatuses_spec. simpl.
  rewrite list_lookup_fmap, lookup_seq_lt by done. reflexivity.
Qed.

(** [getCellValue] keeps every truthy cell and turns the others into a
    falsy value. *)
Lemma getCellValue_truthy (row : Row) (c : nat) :
  truthy (cellAt row c) = true → getCellValue row c = cellAt row c.
Proof.
  unfold getCellValue. destruct (cellAt row c) as [| |b|n|s]; simpl; try done.
  destruct (String.eqb_spec s "") as [->|_]; [done|]. simpl.
  destruct (String.eqb_spec s "B") as [->|_]; done.
Qed.

Lemma getCellValue_falsy (row : Row) (c : nat) :
  truthy (cellAt row c) = false → truthy (getCellValue row c) = false.
Proof.
  unfold getCellValue. destruct (cellAt row c) as [| |b|n|s]; simpl; try done.
  destruct (String.eqb_spec s "") as [->|_]; [done|]. simpl. done.
Qed.

Lemma slotOf_cases (row : Row) (c : nat) :
  slotOf row c = if truthy (cellAt row c) then cellAt row c else JStr "B".
Proof.
  unfold slotOf, jsOr. destruct (truthy (cellAt row c)) eqn:Ht.
  - rewrite getCellValue_truthy by done. by rewrite Ht.
  - by rewrite getCellValue_falsy.
Qed.

Lemma slotOf_truthy (row : Row) (c : nat) : truthy (slotOf row c) = true.
Proof. rewrite slotOf_cases. by destruct (truthy (cellAt row c)) eqn:Ht. Qed.

(** ** What a successful [parseGateRow] returns *)

Lemma parseGateRow_fields (row : Row) (index : nat) (g : Gate) :
  parseGateRow row index = Normal g →
  rowIndex g = index
  ∧ mcn_no g = getCellValue row 0
  ∧ sts g = getCellValue row 5
  ∧ rev_flag g = jsOr (getCellValue row 2) (JNum (numOfZ 0))
  ∧ isReverse g = strictEq (rev_flag g) (JNum (numOfZ 1))
  ∧ parseGateNumber (getCellValue row 0) = Normal (gateNumber g)
  ∧ mod_ g = mathCeil (numDiv20 (gateNumber g))
  ∧ skirtStatuses g = pushStatuses row 38 20 []
  ∧ jointStatuses g =
      (if isReverse g
       then JNull :: reverse (slice1 (pushStatuses row 17 20 []))
       else pushStatuses row 17 20 []).
Proof.
  unfold parseGateRow. change (37 - 17) with 20. change (58 - 38) with 20.
  destruct (parseGateNumber (getCellValue row 0)) as [n|e] eqn:Hn;
    unfold cbind; [|done].
  intros [= <-]. cbn [rowIndex mcn_no sts rev_flag isReverse gateNumber mod_
                      skirtStatuses jointStatuses].
  repeat split; done.
Qed.

(** [parseGateRow] throws exactly when the gate-number cell holds a number
    or a boolean. *)
Lemma parseGateRow_throws (row : Row) (index : nat) :
  (∃ e, parseGateRow row index = Throw e) ↔
  (∃ n, cellAt row 0 = JNum n) ∨ (∃ b, cellAt row 0 = JBool b).
Proof.
  unfold parseGateRow, parseGateNumber, getCellValue.
  destruct (cellAt row 0) as [| |b|n|s]; simpl.
  - split; [intros [e He]; done | intros [[n Hn]|[b Hb]]; done].
  - split; [intros [e He]; done | intros [[n Hn]|[b Hb]]; done].
  - split; [eauto | intros _; eauto].
  - split; [eauto | intros _; eauto].
  - split; [|intros [[n Hn]|[b Hb]]; done].
    intros [e He]. exfalso. revert He.
    destruct (String.eqb s ""); simpl; [done|].
    destruct (String.eqb s "B"); simpl.
    + done.
    + unfold jsOr. destruct (truthy _); done.
Qed.

(** ** From the built records back to the rows *)

Lemma filterNotNull_elem {A} (arr : list (option A)) (a : A) :
  a ∈ filterNotNull arr ↔ Some a ∈ arr.
Proof.
  induction arr as [|[b|] arr IH]; simpl.
  - split; intros H; inversion H.
  - rewrite !elem_of_cons, IH. split; intros [H|H]; auto; left; congruence.
  - rewrite elem_of_cons, IH. split; [auto | intros [H|H]; [done | auto]].
Qed.

Lemma filterNotNull_length {A} (arr : list (option A)) :
  length (filterNotNull arr) ≤ length arr.
Proof. induction arr as [|[b|] arr IH]; simpl; lia. Qed.

Lemma parseOrNull_Some (i : nat) (row : Row) (g : Gate) :
  parseOrNull i row = Some g ↔ parseGateRow row i = Normal g.
Proof.
  unfold parseOrNull. destruct (parseGateRow row i); split; congruence.
Qed.

(** A record is in the output exactly when it is the successful parse of
    some data row at that row's position. *)
Lemma parsed_elem (rows : list Row) (g : Gate) :
  g ∈ filterNotNull (imap parseOrNull rows) ↔
  ∃ i row, rows !! i = Some row ∧ parseGateRow row i = Normal g.
Proof.
  rewrite filterNotNull_elem, list_elem_of_lookup. split.
  - intros [i Hi]. rewrite list_lookup_imap in Hi.
    destruct (rows !! i) as [row|] eqn:Hrow; simpl in Hi; [|done].
    exists i, row. split; [done|]. apply parseOrNull_Some. congruence.
  - intros (i & row & Hrow & Hp). exists i.
    rewrite list_lookup_imap, Hrow. simpl. f_equal. by apply parseOrNull_Some.
Qed.

Lemma parsed_from_sorted (off : nat) (rows : list Row) :
  let gs := filterNotNull (imap (λ i, parseOrNull (off + i)) rows) in
  Forall (λ g, off ≤ rowIndex g) gs ∧ StronglySorted lt (rowIndex <$> gs).
Proof.
  revert off. induction rows as [|row rows IH]; intros off; simpl.
  - split; constructor.
  - assert (Hext : imap ((λ i, parseOrNull (off + i)) ∘ S) rows
                   = imap (λ i, parseOrNull (S off + i)) rows).
    { apply imap_ext. intros i x _. simpl. f_equal. lia. }
    rewrite Hext. destruct (IH (S off)) as [Hge Hsorted].
    assert (Hge' : Forall (λ g, off ≤ rowIndex g)
                     (filterNotNull (imap (λ i, parseOrNull (S off + i)) rows))).
    { eapply Forall_impl; [exact Hge|]. simpl. intros; lia. }
    destruct (parseOrNull (off + 0) row) as [g|] eqn:Hg; [|done].
    apply parseOrNull_Some, parseGateRow_fields in Hg as [Hidx _].
    split.
    + constructor; [lia | done].
    + simpl. constructor; [done|].
      rewrite Forall_fmap. eapply Forall_impl; [exact Hge|]. simpl. intros; lia.
Qed.

Lemma StronglySorted_lookup_lt (l : list nat) (i j x y : nat) :
  StronglySorted lt l → i < j → l !! i = Some x → l !! j = Some y → x < y.
Proof.
  intros Hs. revert i j x y.
  induction Hs as [|a l Hs IH Hall]; intros i j x y Hij Hi Hj.
  - done.
  - destruct j as [|j]; [lia|]. simpl in Hj. destruct i as [|i]; simpl in Hi.
    + injection Hi as <-. rewrite Forall_forall in Hall. apply Hall.
      eapply list_elem_of_lookup_2. exact Hj.
    + apply (IH i j); [lia | done | done].
Qed.

(** A successful [loadExcel] stores and returns the parse of the rows
    after the header. *)
Lemma loadExcel_Normal (this this' : ExcelParser) (table : list Row) (gs : list Gate) :
  loadExcel this table = (this', Normal gs) →
  table ≠ []
  ∧ gs = filterNotNull (imap parseOrNull (dataRowsOf table))
  ∧ this' = {| rawData := Some table; gates := gs; isLoaded := true |}.
Proof.
  unfold loadExcel, validateData. simpl.
  destruct table as [|header rows]; simpl; [done|].
  intros [= <- <-]. done.
Qed.

Lemma loadExcel_gate_row (this this' : ExcelParser) (table : list Row)
    (gs : list Gate) (g : Gate) :
  loadExcel this table = (this', Normal gs) → g ∈ gs →
  ∃ row, dataRowsOf table !! rowIndex g = Some row
         ∧ parseGateRow row (rowIndex g) = Normal g.
Proof.
  intros Hload Hg. apply loadExcel_Normal in Hload as (_ & -> & _).
  apply parsed_elem in Hg as (i & row & Hrow & Hp).
  pose proof (parseGateRow_fields _ _ _ Hp) as [Hidx _].
  exists row. by rewrite Hidx.
Qed.

Lemma loadExcel_snd_gate_row (this : ExcelParser) (table : list Row)
    (gs : list Gate) (g : Gate) :
  snd (loadExcel this table) = Normal gs → g ∈ gs →
  ∃ row, dataRowsOf table !! rowIndex g = Some row
         ∧ parseGateRow row (rowIndex g) = Normal g.
Proof.
  intros Hload. apply (loadExcel_gate_row this (fst (loadExcel this table))).
  rewrite <- Hload. by destruct (loadExcel this table).
Qed.

(** The slots of a record, position by position, in terms of the cells of
    its row. *)
Lemma parseGateRow_slots (row : Row) (index : nat) (g : Gate) :
  parseGateRow row index = Normal g →
  length (jointStatuses g) = 20
  ∧ length (skirtStatuses g) = 20
  ∧ (∀ k, k < 20 → skirtStatuses g !! k = Some (slotOf row (38 + k)))
  ∧ (isReverse g = false →
       ∀ k, k < 20 → jointStatuses g !! k = Some (slotOf row (17 + k)))
  ∧ (isReverse g = true →
       jointStatuses g !! 0 = Some JNull
       ∧ ∀ k, 1 ≤ k ≤ 19 → jointStatuses g !! k = Some (slotOf row (17 + (20 - k)))).
Proof.
  intros Hp. apply parseGateRow_fields in Hp
    as (_ & _ & _ & _ & _ & _ & _ & Hskirt & Hjoint).
  rewrite Hskirt, Hjoint. clear Hskirt Hjoint.
  assert (Hlen : length (reverse (slice1 (pushStatuses row 17 20 []))) = 19).
  { unfold slice1. by rewrite length_reverse, length_drop, pushStatuses_length. }
  split; [|split; [|split; [|split]]].
  - destruct (isReverse g); [by rewrite length_cons, Hlen | apply pushStatuses_length].
  - apply pushStatuses_length.
  - intros k Hk. by apply pushStatuses_lookup.
  - intros -> k Hk. by apply pushStatuses_lookup.
  - intros ->. split; [done|].
    intros k [Hk1 Hk2]. destruct k as [|k]; [lia|]. rewrite lookup_cons.
    rewrite reverse_lookup by (rewrite length_reverse in Hlen; lia).
    rewrite length_reverse in Hlen. rewrite Hlen. unfold slice1.
    rewrite lookup_drop, pushStatuses_lookup by lia.
    do 2 f_equal. lia.
Qed.

Example sampleTable_build :
  snd (loadExcel newParser sampleTable) = Normal [sampleReverseGate; sampleStringFlagGate].
Proof. vm_compute. reflexivity. Qed.

Example sampleReverseGate_joints :
  jointStatuses sampleReverseGate
  = JNull :: replicate 17 (JStr "B") ++ [JStr "C"; JStr "B"].
Proof. reflexivity. Qed.

Example sampleStringFlagGate_joints :
  jointStatuses sampleStringFlagGate
  = [JStr "A"; JStr "B"; JStr "C"] ++ replicate 17 (JStr "B").
Proof. reflexivity. Qed.

Lemma strictEq_zero_falsy (v : JsVal) :
  strictEq v (JNum (numOfZ 0)) = true → truthy v = false.
Proof.
  destruct v as [| |b|[|q]|s]; try done.
  unfold strictEq, numEq, numOfZ, truthy.
  change (inject_Z 0) with 0%Q. by intros ->.
Qed.

(** The values found in the two arrays of a record. *)
Lemma parseGateRow_slot_values (row : Row) (index : nat) (g : Gate) :
  parseGateRow row index = Normal g →
  Forall (λ v, truthy v = true) (skirtStatuses g)
  ∧ (isReverse g = false → Forall (λ v, truthy v = true) (jointStatuses g))
  ∧ (isReverse g = true →
       ∃ joints, jointStatuses g = JNull :: joints
                 ∧ Forall (λ v, truthy v = true) joints).
Proof.
  intros Hp. apply parseGateRow_fields in Hp
    as (_ & _ & _ & _ & _ & _ & _ & Hskirt & Hjoint).
  assert (Hall : ∀ from, Forall (λ v, truthy v = true) (pushStatuses row from 20 [])).
  { intros from. rewrite pushStatuses_spec, app_nil_l, Forall_fmap.
    apply Forall_forall. intros c _. apply slotOf_truthy. }
  rewrite Hskirt, Hjoint. split; [apply Hall|]. split.
  - intros ->. apply Hall.
  - intros ->. eexists. split; [reflexivity|].
    apply Forall_reverse. unfold slice1. apply Forall_drop, Hall.
Qed.

(** Discharging the two hypotheses of a build-level statement on the
    sample table. *)
Ltac sample_build :=
  first [ exact sampleTable_build
        | apply list_elem_of_here
        | apply list_elem_of_further, list_elem_of_here ].

(** ** C6: both status arrays have 20 slots *)

(** C6.  Every record produced by a build has [jointStatuses] of length
    exactly 20 and [skirtStatuses] of length exactly 20, whatever cells the
    row lacks and whether or not the reverse rule applied. *)
Theorem status_arrays_have_20_slots (this : ExcelParser) (table : list Row)
    (gs : list Gate) (g : Gate) :
  snd (loadExcel this table) = Normal gs → g ∈ gs →
  length (jointStatuses g) = 20 ∧ length (skirtStatuses g) = 20.
Proof.
  intros Hload Hg.
  destruct (loadExcel_snd_gate_row _ _ _ _ Hload Hg) as (row & _ & Hp).
  apply parseGateRow_slots in Hp as (Hj & Hs & _). done.
Qed.

Lemma status_arrays_have_20_slots_witness :
  snd (loadExcel newParser sampleTable) = Normal [sampleReverseGate; sampleStringFlagGate]
  ∧ sampleReverseGate ∈ [sampleReverseGate; sampleStringFlagGate]
  ∧ length (jointStatuses sampleReverseGate) = 20
  ∧ length (skirtStatuses sampleReverseGate) = 20.
Proof.
  split; [sample_build|]. split; [sample_build|].
  apply (status_arrays_have_20_slots newParser sampleTable
           [sampleReverseGate; sampleStringFlagGate] sampleReverseGate); sample_build.
Defined.

(** ** C1: the reverse rule *)

(** C1.  For every record of a build whose [rev_flag] is the number 1,
    [jointStatuses] has 20 slots, position 0 is [null] and positions 1..19
    are the reverse of positions 1..19 of the array extracted from columns
    17..36; [skirtStatuses] is the array extracted from columns 38..57,
    un-reversed.  For every record whose [rev_flag] is not the number 1,
    [jointStatuses] is the extracted array itself, each slot being the cell
    or the default "B". *)
Theorem reverse_rule (this : ExcelParser) (table : list Row)
    (gs : list Gate) (g : Gate) :
  snd (loadExcel this table) = Normal gs → g ∈ gs →
  ∃ row, dataRowsOf table !! rowIndex g = Some row
    ∧ rev_flag g = jsOr (getCellValue row 2) (JNum (numOfZ 0))
    ∧ skirtStatuses g = pushStatuses row 38 20 []
    ∧ (∀ k, k < 20 → skirtStatuses g !! k = Some (slotOf row (38 + k)))
    ∧ (strictEq (rev_flag g) (JNum (numOfZ 1)) = true →
         length (jointStatuses g) = 20
         ∧ jointStatuses g !! 0 = Some JNull
         ∧ drop 1 (jointStatuses g) = reverse (drop 1 (pushStatuses row 17 20 []))
         ∧ ∀ k, 1 ≤ k ≤ 19 →
             jointStatuses g !! k = Some (slotOf row (17 + (20 - k))))
    ∧ (strictEq (rev_flag g) (JNum (numOfZ 1)) = false →
         jointStatuses g = pushStatuses row 17 20 []
         ∧ ∀ k, k < 20 → jointStatuses g !! k = Some (slotOf row (17 + k))).
Proof.
  intros Hload Hg.
  destruct (loadExcel_snd_gate_row _ _ _ _ Hload Hg) as (row & Hrow & Hp).
  exists row. split; [done|].
  pose proof (parseGateRow_slots _ _ _ Hp) as (Hlen & _ & Hskirt & Hnorm & Hrev).
  pose proof (parseGateRow_fields _ _ _ Hp)
    as (_ & _ & _ & Hflag & Hisrev & _ & _ & Hs & Hj).
  split; [done|]. split; [done|]. split; [done|]. rewrite <- Hisrev. split.
  - intros Hr. destruct (Hrev Hr) as [H0 Hk]. rewrite Hr in Hj.
    split; [done|]. split; [done|]. split; [by rewrite Hj | done].
  - intros Hr. rewrite Hr in Hj. split; [done | by apply Hnorm].
Qed.

Lemma reverse_rule_witness :
  snd (loadExcel newParser sampleTable) = Normal [sampleReverseGate; sampleStringFlagGate]
  ∧ sampleReverseGate ∈ [sampleReverseGate; sampleStringFlagGate]
  ∧ ∃ row, dataRowsOf sampleTable !! rowIndex sampleReverseGate = Some row
      ∧ rev_flag sampleReverseGate = jsOr (getCellValue row 2) (JNum (numOfZ 0))
      ∧ skirtStatuses sampleReverseGate = pushStatuses row 38 20 [].
Proof.
  split; [sample_build|]. split; [sample_build|].
  destruct (reverse_rule newParser sampleTable
              [sampleReverseGate; sampleStringFlagGate] sampleReverseGate)
    as (row & H1 & H2 & H3 & _); [sample_build | sample_build |].
  exists row. auto.
Defined.

(** ** C9: the reverse flag is compared with the number 1 *)

(** C9.  For every record of a build whose row holds the string "1" in
    the rev-flag cell (column 2), [isReverse] is false and [jointStatuses]
    is the extracted array, not reversed: slot [k] comes from column
    [17 + k]. *)
Theorem string_flag_is_not_reverse (this : ExcelParser) (table : list Row)
    (gs : list Gate) (g : Gate) (row : Row) :
  snd (loadExcel this table) = Normal gs → g ∈ gs →
  dataRowsOf table !! rowIndex g = Some row →
  cellAt row 2 = JStr "1" →
  rev_flag g = JStr "1"
  ∧ strictEq (rev_flag g) (JNum (numOfZ 1)) = false
  ∧ isReverse g = false
  ∧ jointStatuses g = pushStatuses row 17 20 []
  ∧ ∀ k, k < 20 → jointStatuses g !! k = Some (slotOf row (17 + k)).
Proof.
  intros Hload Hg Hrow Hcell.
  destruct (loadExcel_snd_gate_row _ _ _ _ Hload Hg) as (row' & Hrow' & Hp).
  assert (row' = row) as -> by congruence.
  pose proof (parseGateRow_slots _ _ _ Hp) as (_ & _ & _ & Hnorm & _).
  pose proof (parseGateRow_fields _ _ _ Hp)
    as (_ & _ & _ & Hflag & Hisrev & _ & _ & _ & Hj).
  assert (Hf : rev_flag g = JStr "1").
  { rewrite Hflag. unfold getCellValue. rewrite Hcell. reflexivity. }
  assert (Hr : isReverse g = false) by (rewrite Hisrev, Hf; reflexivity).
  rewrite Hr in Hj. rewrite Hf.
  split; [done|]. split; [done|]. split; [done|]. split; [done|]. by apply Hnorm.
Qed.

Lemma string_flag_is_not_reverse_witness :
  snd (loadExcel newParser sampleTable) = Normal [sampleReverseGate; sampleStringFlagGate]
  ∧ sampleStringFlagGate ∈ [sampleReverseGate; sampleStringFlagGate]
  ∧ dataRowsOf sampleTable !! rowIndex sampleStringFlagGate = Some sampleStringFlagRow
  ∧ cellAt sampleStringFlagRow 2 = JStr "1"
  ∧ isReverse sampleStringFlagGate = false
  ∧ jointStatuses sampleStringFlagGate = pushStatuses sampleStringFlagRow 17 20 [].
Proof.
  split; [sample_build|]. split; [sample_build|].
  split; [reflexivity|]. split; [reflexivity|].
  destruct (string_flag_is_not_reverse newParser sampleTable
              [sampleReverseGate; sampleStringFlagGate] sampleStringFlagGate
              sampleStringFlagRow)
    as (_ & _ & H1 & H2 & _); [sample_build | sample_build | reflexivity | reflexivity |].
  auto.
Defined.

(** ** C10: every falsy cell of a status slot becomes "B" *)

(** C10.  For every record of a build and every slot of [jointStatuses]
    or [skirtStatuses] that has a source cell ([jointSource] and
    [skirtSource]: position 0 of a reversed [jointStatuses] is a constant
    and has none), a source cell holding a falsy value, and so one holding
    the number 0, leaves the sentinel "B" in the slot; and no slot of either
    array holds the number 0. *)
Theorem falsy_cell_becomes_B (this : ExcelParser) (table : list Row)
    (gs : list Gate) (g : Gate) :
  snd (loadExcel this table) = Normal gs → g ∈ gs →
  ∃ row, dataRowsOf table !! rowIndex g = Some row
    ∧ (∀ k c, k < 20 → jointSource g k = Some c →
         (truthy (cellAt row c) = false → jointStatuses g !! k = Some (JStr "B"))
         ∧ (strictEq (cellAt row c) (JNum (numOfZ 0)) = true →
              jointStatuses g !! k = Some (JStr "B")))
    ∧ (∀ k, k < 20 →
         (truthy (cellAt row (skirtSource k)) = false →
            skirtStatuses g !! k = Some (JStr "B"))
         ∧ (strictEq (cellAt row (skirtSource k)) (JNum (numOfZ 0)) = true →
              skirtStatuses g !! k = Some (JStr "B")))
    ∧ (∀ v, v ∈ jointStatuses g ++ skirtStatuses g →
         strictEq v (JNum (numOfZ 0)) = false).
Proof.
  intros Hload Hg.
  destruct (loadExcel_snd_gate_row _ _ _ _ Hload Hg) as (row & Hrow & Hp).
  exists row. split; [done|].
  pose proof (parseGateRow_slots _ _ _ Hp) as (_ & _ & Hskirt & Hnorm & Hrev).
  pose proof (parseGateRow_slot_values _ _ _ Hp) as (Hsv & Hjn & Hjr).
  assert (HB : ∀ c, truthy (cellAt row c) = false → slotOf row c = JStr "B").
  { intros c Hc. by rewrite slotOf_cases, Hc. }
  assert (Hjoint : ∀ k c, k < 20 → jointSource g k = Some c →
            truthy (cellAt row c) = false → jointStatuses g !! k = Some (JStr "B")).
  { intros k c Hk Hsrc Hc. unfold jointSource in Hsrc.
    destruct (isReverse g) eqn:Hr.
    - destruct (Nat.eqb_spec k 0) as [->|Hk0]; [done|]. injection Hsrc as <-.
      destruct (Hrev eq_refl) as [_ Hlk]. rewrite Hlk by lia. f_equal. by apply HB.
    - injection Hsrc as <-. rewrite (Hnorm eq_refl) by done. f_equal. by apply HB. }
  assert (Hsk : ∀ k, k < 20 → truthy (cellAt row (skirtSource k)) = false →
            skirtStatuses g !! k = Some (JStr "B")).
  { intros k Hk Hc. rewrite Hskirt by done. f_equal. by apply HB. }
  split; [|split].
  - intros k c Hk Hsrc. split; [by apply Hjoint|].
    intros Hz. apply (Hjoint k c); [done | done | by apply strictEq_zero_falsy].
  - intros k Hk. split; [by apply Hsk|].
    intros Hz. apply Hsk; [done | by apply strictEq_zero_falsy].
  - intros v Hv. destruct (strictEq v (JNum (numOfZ 0))) eqn:Hz; [|done].
    pose proof (strictEq_zero_falsy _ Hz) as Hf. exfalso.
    assert (Hnot : ∀ l, Forall (λ v, truthy v = true) l → v ∉ l).
    { intros l Hl Hin. rewrite Forall_forall in Hl. apply Hl in Hin. congruence. }
    apply elem_of_app in Hv as [Hv|Hv]; [|by apply (Hnot _ Hsv)].
    destruct (isReverse g) eqn:Hr.
    + destruct (Hjr eq_refl) as (joints & Heq & Hall). rewrite Heq in Hv.
      apply elem_of_cons in Hv as [->|Hv]; [done | by apply (Hnot _ Hall)].
    + by apply (Hnot _ (Hjn eq_refl)).
Qed.

Lemma falsy_cell_becomes_B_witness :
  snd (loadExcel newParser sampleTable) = Normal [sampleReverseGate; sampleStringFlagGate]
  ∧ sampleStringFlagGate ∈ [sampleReverseGate; sampleStringFlagGate]
  ∧ ∃ row, dataRowsOf sampleTable !! rowIndex sampleStringFlagGate = Some row
      ∧ ∀ v, v ∈ jointStatuses sampleStringFlagGate ++ skirtStatuses sampleStringFlagGate →
          strictEq v (JNum (numOfZ 0)) = false.
Proof.
  split; [sample_build|]. split; [sample_build|].
  destruct (falsy_cell_becomes_B newParser sampleTable
              [sampleReverseGate; sampleStringFlagGate] sampleStringFlagGate)
    as (row & H1 & _ & _ & H2); [sample_build | sample_build |].
  exists row. auto.
Defined.

(** The cell at column 18 of the sample rows is the number 0: the string-
    flag record holds "B" at position 1, the reversed record at position
    19. *)
Example zero_cell_slots :
  cellAt sampleStringFlagRow 18 = JNum (numOfZ 0)
  ∧ jointStatuses sampleStringFlagGate !! 1 = Some (JStr "B")
  ∧ jointSource sampleReverseGate 19 = Some 18
  ∧ jointStatuses sampleReverseGate !! 19 = Some (JStr "B").
Proof. repeat split. Qed.

(** ** C2: which slots can be [null] *)

Lemma getCellValue_empty (row : Row) (c : nat) :
  emptyCell (cellAt row c) → getCellValue row c = JNull ∧ slotOf row c = JStr "B".
Proof.
  unfold slotOf, getCellValue. intros [->|[->| ->]]; done.
Qed.

Lemma parseGateRow_scalars (row : Row) (index : nat) (g : Gate) (c : nat) (v : JsVal) :
  parseGateRow row index = Normal g → scalarField g c = Some v →
  v = if Nat.eqb c 2 || Nat.eqb c 14
      then jsOr (getCellValue row c) (JNum (numOfZ 0))
      else getCellValue row c.
Proof.
  unfold parseGateRow.
  destruct (parseGateNumber (getCellValue row 0)) as [n|e]; unfold cbind; [|done].
  intros [= <-]. unfold scalarField.
  do 38 (destruct c as [|c]; [cbn; congruence|]). done.
Qed.

(** C2, as stated, fails: the reversed record of the sample table holds
    [null] at position 0 of [jointStatuses]. *)
Lemma reversed_joints_hold_null :
  ¬ (∀ (table : list Row) (gs : list Gate) (g : Gate),
       snd (loadExcel newParser table) = Normal gs → g ∈ gs →
       (JNull ∉ jointStatuses g) ∧ (JNull ∉ skirtStatuses g)).
Proof.
  intros Hclaim.
  destruct (Hclaim sampleTable [sampleReverseGate; sampleStringFlagGate]
              sampleReverseGate) as [Hj _]; [sample_build | sample_build |].
  apply Hj. rewrite sampleReverseGate_joints. apply list_elem_of_here.
Qed.

(** The slot of [jointStatuses] at position [k], in terms of the cell it
    was read from. *)
Lemma parseGateRow_joint_source (row : Row) (index : nat) (g : Gate) (k c : nat) :
  parseGateRow row index = Normal g → k < 20 → jointSource g k = Some c →
  jointStatuses g !! k = Some (slotOf row c).
Proof.
  intros Hp Hk Hsrc.
  pose proof (parseGateRow_slots _ _ _ Hp) as (_ & _ & _ & Hnorm & Hrev).
  unfold jointSource in Hsrc. destruct (isReverse g) eqn:Hr.
  - destruct (Nat.eqb_spec k 0) as [->|Hk0]; [done|]. injection Hsrc as <-.
    destruct (Hrev eq_refl) as [_ Hlk]. apply Hlk. lia.
  - injection Hsrc as <-. by apply (Hnorm eq_refl).
Qed.

(** C2, amended.  For every record of a build, both arrays have 20 slots.
    Every slot of [skirtStatuses] holds the value of its cell when that is
    truthy and the sentinel "B" otherwise, so [skirtStatuses] never
    contains [null]; [jointStatuses] of a record that is not reversed
    likewise.  A reversed record holds [null] at position 0 of
    [jointStatuses] and nowhere else: position [k] of 1..19 holds the value
    of the cell of column [17 + (20 - k)] or "B".  An empty cell (empty
    string, null, undefined) gives "B" in the status slot it feeds and
    [null] in a scalar field, except the fields [rev_flag] and [skirt_qty],
    where it gives the number 0. *)
Theorem null_only_at_reversed_head (this : ExcelParser) (table : list Row)
    (gs : list Gate) (g : Gate) :
  snd (loadExcel this table) = Normal gs → g ∈ gs →
  ∃ row, dataRowsOf table !! rowIndex g = Some row
    ∧ length (jointStatuses g) = 20 ∧ length (skirtStatuses g) = 20
    ∧ (JNull ∉ skirtStatuses g)
    ∧ Forall (λ v, truthy v = true) (skirtStatuses g)
    ∧ (∀ k, k < 20 →
         skirtStatuses g !! k
         = Some (if truthy (cellAt row (38 + k)) then cellAt row (38 + k)
                 else JStr "B"))
    ∧ (isReverse g = false →
         (JNull ∉ jointStatuses g) ∧ Forall (λ v, truthy v = true) (jointStatuses g)
         ∧ ∀ k, k < 20 →
             jointStatuses g !! k
             = Some (if truthy (cellAt row (17 + k)) then cellAt row (17 + k)
                     else JStr "B"))
    ∧ (isReverse g = true →
         jointStatuses g !! 0 = Some JNull
         ∧ (JNull ∉ drop 1 (jointStatuses g))
         ∧ Forall (λ v, truthy v = true) (drop 1 (jointStatuses g))
         ∧ ∀ k, 1 ≤ k ≤ 19 →
             jointStatuses g !! k
             = Some (if truthy (cellAt row (17 + (20 - k)))
                     then cellAt row (17 + (20 - k)) else JStr "B"))
    ∧ (∀ k, k < 20 → emptyCell (cellAt row (skirtSource k)) →
         skirtStatuses g !! k = Some (JStr "B"))
    ∧ (∀ k c, k < 20 → jointSource g k = Some c → emptyCell (cellAt row c) →
         jointStatuses g !! k = Some (JStr "B"))
    ∧ (∀ c, emptyCell (cellAt row c) → slotOf row c = JStr "B")
    ∧ (∀ c v, scalarField g c = Some v → emptyCell (cellAt row c) →
         v = if Nat.eqb c 2 || Nat.eqb c 14 then JNum (numOfZ 0) else JNull).
Proof.
  intros Hload Hg.
  destruct (loadExcel_snd_gate_row _ _ _ _ Hload Hg) as (row & Hrow & Hp).
  exists row. split; [done|].
  pose proof (parseGateRow_slot_values _ _ _ Hp) as (Hsv & Hjn & Hjr).
  pose proof (parseGateRow_slots _ _ _ Hp) as (Hlj & Hls & Hskirt & Hnorm & Hrev).
  assert (Hnot : ∀ l, Forall (λ v, truthy v = true) l → JNull ∉ l).
  { intros l Hl Hin. rewrite Forall_forall in Hl. by apply Hl in Hin. }
  split; [done|]. split; [done|]. split; [by apply Hnot|]. split; [done|].
  split; [|split; [|split; [|split; [|split; [|split]]]]].
  - intros k Hk. rewrite Hskirt by done. by rewrite slotOf_cases.
  - intros Hr. split; [apply Hnot; by apply Hjn|]. split; [by apply Hjn|].
    intros k Hk. rewrite (Hnorm Hr) by done. by rewrite slotOf_cases.
  - intros Hr. destruct (Hrev Hr) as [H0 Hk]. split; [done|].
    destruct (Hjr Hr) as (joints & Hj & Hall). rewrite Hj.
    split; [by apply Hnot|]. split; [done|].
    intros k Hk1. rewrite <- Hj, (Hk k Hk1). by rewrite slotOf_cases.
  - intros k Hk Hc. unfold skirtSource in Hc. rewrite Hskirt by done. f_equal.
    by apply getCellValue_empty.
  - intros k c Hk Hsrc Hc. rewrite (parseGateRow_joint_source _ _ _ _ _ Hp Hk Hsrc).
    f_equal. by apply getCellValue_empty.
  - intros c Hc. by apply getCellValue_empty.
  - intros c v Hf Hc. rewrite (parseGateRow_scalars _ _ _ _ _ Hp Hf).
    destruct (getCellValue_empty _ _ Hc) as [-> _].
    by destruct (Nat.eqb c 2 || Nat.eqb c 14).
Qed.

Lemma null_only_at_reversed_head_witness :
  snd (loadExcel newParser sampleTable) = Normal [sampleReverseGate; sampleStringFlagGate]
  ∧ sampleReverseGate ∈ [sampleReverseGate; sampleStringFlagGate]
  ∧ ∃ row, dataRowsOf sampleTable !! rowIndex sampleReverseGate = Some row
      ∧ (JNull ∉ skirtStatuses sampleReverseGate)
      ∧ ∀ k, k < 20 →
          skirtStatuses sampleReverseGate !! k
          = Some (if truthy (cellAt row (38 + k)) then cellAt row (38 + k)
                  else JStr "B").
Proof.
  split; [sample_build|]. split; [sample_build|].
  destruct (null_only_at_reversed_head newParser sampleTable
              [sampleReverseGate; sampleStringFlagGate] sampleReverseGate)
    as (row & H1 & _ & _ & H2 & _ & H3 & _); [sample_build | sample_build |].
  exists row. auto.
Defined.

(** ** [parseInt] on decimal digit strings *)






(** ** C3: the group index *)






Example sample_group_indices :
  mod_ sampleReverseGate = numOfZ 1 ∧ mod_ sampleStringFlagGate = numOfZ 2
  ∧ groupIndexOfId (JStr "G-25") = [numOfZ (-1)]
  ∧ groupIndexOfId (JNum (numOfZ 7)) = [].
Proof. repeat split. Qed.

(** ** C4: the empty-table check *)

(** C4, as stated, fails: a table holding only a header row is accepted
    and gives an empty record list. *)
Lemma header_only_table_is_accepted :
  snd (loadExcel newParser [sampleHeader]) = Normal []
  ∧ snd (loadExcel newParser [sampleHeader]) ≠ Throw DataEmpty.
Proof. split; [reflexivity | discriminate]. Qed.

(** C4, amended.  A build fails with [DataEmpty] exactly when the table
    has no row at all, and it leaves the parser not loaded then; a table
    holding only the header row is accepted: the build succeeds with zero
    records and the parser is loaded. *)
Theorem build_fails_only_on_empty_table (this : ExcelParser) :
  loadExcel this []
    = ({| rawData := Some []; gates := gates this; isLoaded := isLoaded this |},
       Throw DataEmpty)
  ∧ (∀ table, snd (loadExcel this table) = Throw DataEmpty ↔ table = [])
  ∧ (∀ table e, snd (loadExcel this table) = Throw e → e = DataEmpty)
  ∧ (∀ header,
       loadExcel this [header]
       = ({| rawData := Some [header]; gates := []; isLoaded := true |}, Normal [])).
Proof.
  split; [reflexivity|]. split; [|split].
  - intros [|header rows]; simpl; split; done.
  - intros [|header rows] e; simpl; [congruence | done].
  - reflexivity.
Qed.

(** ** C5: a row whose parse throws is dropped *)

(** C5.  Building from a table with a header never aborts, whatever the
    data rows.  A data row whose [parseGateRow] throws leaves no record;
    every other data row leaves exactly its record; the records come in
    the order of their rows ([rowIndex] increases strictly along the
    output), and there are at most as many as data rows. *)
Theorem bad_rows_are_dropped (this : ExcelParser) (header : Row) (rows : list Row) :
  ∃ gs, snd (loadExcel this (header :: rows)) = Normal gs
    ∧ gates (fst (loadExcel this (header :: rows))) = gs
    ∧ length gs ≤ length rows
    ∧ (∀ i row e, rows !! i = Some row → parseGateRow row i = Throw e →
         ∀ g, g ∈ gs → rowIndex g ≠ i)
    ∧ (∀ i row g, rows !! i = Some row → parseGateRow row i = Normal g → g ∈ gs)
    ∧ (∀ g, g ∈ gs →
         ∃ row, rows !! rowIndex g = Some row
                ∧ parseGateRow row (rowIndex g) = Normal g)
    ∧ (∀ j1 j2 g1 g2, j1 < j2 → gs !! j1 = Some g1 → gs !! j2 = Some g2 →
         rowIndex g1 < rowIndex g2).
Proof.
  exists (filterNotNull (imap parseOrNull rows)).
  split; [reflexivity|]. split; [reflexivity|].
  assert (Hback : ∀ g, g ∈ filterNotNull (imap parseOrNull rows) →
            ∃ row, rows !! rowIndex g = Some row
                   ∧ parseGateRow row (rowIndex g) = Normal g).
  { intros g Hg. apply parsed_elem in Hg as (i & row & Hrow & Hp).
    pose proof (parseGateRow_fields _ _ _ Hp) as [Hidx _].
    exists row. by rewrite Hidx. }
  split; [|split; [|split; [|split]]].
  - etrans; [apply filterNotNull_length|]. by rewrite length_imap.
  - intros i row e Hrow Hthrow g Hg Hidx.
    destruct (Hback g Hg) as (row' & Hrow' & Hp). rewrite Hidx in Hrow', Hp.
    assert (row' = row) as -> by congruence. congruence.
  - intros i row g Hrow Hp. apply parsed_elem. eauto.
  - exact Hback.
  - intros j1 j2 g1 g2 Hlt H1 H2.
    assert (Hsorted : StronglySorted lt
                        (rowIndex <$> filterNotNull (imap parseOrNull rows))).
    { exact (proj2 (parsed_from_sorted 0 rows)). }
    apply (StronglySorted_lookup_lt _ j1 j2 _ _ Hsorted Hlt).
    + by rewrite list_lookup_fmap, H1.
    + by rewrite list_lookup_fmap, H2.
Qed.

Example bad_row_between_good_rows :
  parseGateRow sampleBadRow 1 = Throw TypeError
  ∧ snd (loadExcel newParser
           [sampleHeader; sampleReverseRow; sampleBadRow; sampleStringFlagRow])
    = Normal [sampleReverseGate; parsedOf sampleStringFlagRow 2].
Proof. split; reflexivity. Qed.

(** ** C8: [filterByMod] *)

(** C8, as stated, fails: the group value 0 is supplied, yet every record
    comes back, though none has group index 0. *)
Lemma filter_by_zero_returns_all :
  let this := fst (loadExcel newParser sampleTable) in
  filterByMod this (JNum (numOfZ 0)) = [sampleReverseGate; sampleStringFlagGate]
  ∧ List.filter (λ g, strictEq (JNum (mod_ g)) (JNum (numOfZ 0))) (gates this) = []
  ∧ ¬ (∀ (p : ExcelParser) (v : JsVal), v ≠ JUndefined →
         filterByMod p v = List.filter (λ g, strictEq (JNum (mod_ g)) v) (gates p)).
Proof.
  split; [reflexivity|]. split; [reflexivity|]. intros Hclaim.
  specialize (Hclaim (fst (loadExcel newParser sampleTable)) (JNum (numOfZ 0))
                ltac:(discriminate)).
  vm_compute in Hclaim. discriminate Hclaim.
Qed.

(** C8, amended.  For every truthy group value, [filterByMod] returns
    exactly the records whose group index is strictly equal to it, in
    their order; for a falsy value (none supplied, that is [undefined],
    but also [null], 0, [NaN], the empty string, [false]) it returns the
    full record set unchanged. *)
Theorem filterByMod_spec (this : ExcelParser) (v : JsVal) :
  filterByMod this v
  = (if truthy v
     then List.filter (λ g, strictEq (JNum (mod_ g)) v) (gates this)
     else gates this)
  ∧ (if truthy v
     then ∀ g, g ∈ filterByMod this v ↔
               g ∈ gates this ∧ strictEq (JNum (mod_ g)) v = true
     else ∀ g, g ∈ filterByMod this v ↔ g ∈ gates this)
  ∧ filterByMod this JUndefined = gates this
  ∧ filterByMod this (JNum (numOfZ 0)) = gates this.
Proof.
  unfold filterByMod. destruct (truthy v) eqn:Hv; simpl.
  - split; [done|]. split; [|done]. intros g.
    rewrite !list_elem_of_In, filter_In. done.
  - split; [done|]. split; done.
Qed.

Example filter_by_group_two :
  filterByMod (fst (loadExcel newParser sampleTable)) (JNum (numOfZ 2))
  = [sampleStringFlagGate]
  ∧ filterByMod (fst (loadExcel newParser sampleTable)) (JStr "2") = [].
Proof. split; reflexivity. Qed.

(** ** C7: [getSummary] *)

Lemma addCount_comm (j1 j2 : string) (z1 z2 : PropVal) (y : option nat) :
  addCount j1 z1 (addCount j2 z2 y) = addCount j2 z2 (addCount j1 z1 y).
Proof.
  destruct z1 as [n1| |], z2 as [n2| |], y as [a|]; simpl; try done.
  f_equal. lia.
Qed.

Lemma countsSum_insert_fresh (obj : gmap string PropVal) (k : string) (v : PropVal) :
  obj !! k = None → countsSum (<[k := v]> obj) = addCount k v (countsSum obj).
Proof.
  intros Hk. unfold countsSum. apply map_fold_insert_L; [|done].
  intros. apply addCount_comm.
Qed.

Lemma countsSum_delete (obj : gmap string PropVal) (k : string) (v : PropVal) :
  obj !! k = Some v → countsSum obj = addCount k v (countsSum (delete k obj)).
Proof.
  intros Hk. unfold countsSum. apply map_fold_delete_L; [|done].
  intros. apply addCount_comm.
Qed.

Lemma inheritedKey_proto (k : string) :
  inheritedKey k = false → String.eqb k "__proto__" = false.
Proof.
  unfold inheritedKey, objectPrototypeKeys. simpl.
  intros H. do 11 (apply orb_false_elim in H as [_ H]).
  by apply orb_false_elim in H as [H _].
Qed.

(** One more record under a key that is not inherited adds one to the sum
    of the counts. *)
Lemma countsSum_step (obj : gmap string PropVal) (k : string) (c : nat) :
  inheritedKey k = false → countsSum obj = Some c →
  countsSum (setProp obj k (orZeroPlusOne (getProp obj k))) = Some (S c).
Proof.
  intros Hk Hsum. unfold setProp, getProp.
  rewrite (inheritedKey_proto k Hk), Hk.
  destruct (obj !! k) as [old|] eqn:Hlook.
  - rewrite (countsSum_delete _ _ _ Hlook) in Hsum.
    rewrite <- insert_delete_eq, countsSum_insert_fresh by apply lookup_delete_eq.
    destruct old as [n| |]; simpl in Hsum; try done.
    destruct (countsSum (delete k obj)) as [a|]; simpl in *; [|done].
    injection Hsum as <-. f_equal. lia.
  - rewrite countsSum_insert_fresh by done. rewrite Hsum. simpl. done.
Qed.

Section SummaryProperties.

Variable numToString : Num → string.

Lemma countsSum_foldl (gs : list Gate) (obj : gmap string PropVal) (c : nat) :
  Forall (λ g, inheritedKey (statusKey numToString g) = false) gs →
  countsSum obj = Some c →
  countsSum (foldl (countStatus numToString) obj gs) = Some (c + length gs).
Proof.
  intros Hall. revert obj c. induction Hall as [|g gs Hg Hall IH]; intros obj c Hsum.
  - simpl. by rewrite Nat.add_0_r.
  - simpl. rewrite (IH _ (S c)).
    + f_equal. lia.
    + unfold countStatus. by apply countsSum_step.
Qed.

(** Before any successful build [getSummary] returns the error object. *)
Lemma getSummary_not_loaded (this : ExcelParser) :
  isLoaded this = false →
  getSummary numToString this = ErrorObject "데이터가 로드되지 않았습니다.".
Proof. unfold getSummary. by intros ->. Qed.

Lemma getSummary_before_build (table : list Row) (e : JsError) :
  getSummary numToString newParser = ErrorObject "데이터가 로드되지 않았습니다."
  ∧ (snd (loadExcel newParser table) = Throw e →
     getSummary numToString (fst (loadExcel newParser table))
     = ErrorObject "데이터가 로드되지 않았습니다.").
Proof.
  split; [reflexivity|]. destruct table as [|header rows]; simpl; done.
Qed.

(** After a successful build the total is the number of records, and
    the per-status counts sum to it as long as no status, as a property
    key, names a property inherited from [Object.prototype]. *)
Lemma getSummary_counts (this this' : ExcelParser) (table : list Row) (gs : list Gate) :
  loadExcel this table = (this', Normal gs) →
  ∃ s, getSummary numToString this' = SummaryObject s
    ∧ totalGates s = length gs
    ∧ (Forall (λ g, inheritedKey (statusKey numToString g) = false) gs →
       countsSum (statusCount s) = Some (length gs)).
Proof.
  intros Hload. apply loadExcel_Normal in Hload as (_ & _ & ->).
  eexists. split; [reflexivity|]. split; [reflexivity|]. simpl.
  intros Hall. apply (countsSum_foldl gs ∅ 0 Hall). reflexivity.
Qed.

End SummaryProperties.

Example sampleStatusTable_summary (numToString : Num → string) :
  ∃ s, getSummary numToString (fst (loadExcel newParser sampleStatusTable))
       = SummaryObject s
    ∧ totalGates s = 3
    ∧ statusCount s = {[ "S" := PNumber 2; "Unknown" := PNumber 1 ]}
    ∧ countsSum (statusCount s) = Some 3.
Proof. eexists. split; [reflexivity|]. repeat split; vm_compute; reflexivity. Qed.

(** C7, at the table [inheritedStatusTable]: the build succeeds with one
    record, [getSummary] reports a total of 1, but the entry of
    [statusCount] for the status "constructor" is a string, not the count
    1 ([summary.statusCount["constructor"]] finds the inherited
    [Object.prototype.constructor], which is truthy, and [+ 1] concatenates),
    so the per-status counts do not sum to the total. *)
Theorem inherited_status_is_not_counted (numToString : Num → string) :
  ∃ gs s,
    snd (loadExcel newParser inheritedStatusTable) = Normal gs
    ∧ length gs = 1
    ∧ getSummary numToString (fst (loadExcel newParser inheritedStatusTable))
      = SummaryObject s
    ∧ totalGates s = 1
    ∧ statusCount s = {[ "constructor" := PText ]}
    ∧ countsSum (statusCount s) ≠ Some (totalGates s).
Proof.
  eexists _, _. split; [reflexivity|]. split; [reflexivity|].
  split; [reflexivity|]. split; [reflexivity|].
  split; [vm_compute; reflexivity|]. vm_compute. discriminate.
Qed.

(** * Further properties of the parser *)

(** ** Which rows throw, and what a row's cells contribute *)

Lemma cellAt_past_end (row : Row) (c : nat) :
  length row ≤ c → cellAt row c = JUndefined.
Proof.
  intros Hc. unfold cellAt, Row in *. by rewrite lookup_ge_None_2.
Qed.

Lemma getCellValue_nonempty (row : Row) (c : nat) :
  ¬ emptyCell (cellAt row c) → getCellValue row c = cellAt row c.
Proof.
  unfold getCellValue, emptyCell.
  destruct (cellAt row c) as [| |b|n|s]; simpl; intros Hne; try done.
  - exfalso. apply Hne. auto.
  - destruct (String.eqb_spec s "") as [->|_]; [exfalso; apply Hne; auto|]. simpl.
    by destruct (String.eqb_spec s "B") as [->|_].
Qed.

Lemma getCellValue_range (row : Row) (c : nat) :
  getCellValue row c ≠ JUndefined ∧ getCellValue row c ≠ JStr "".
Proof.
  unfold getCellValue. destruct (cellAt row c) as [| |b|n|s]; simpl; try done.
  destruct (String.eqb_spec s "") as [->|Hne]; [done|]. simpl.
  destruct (String.eqb_spec s "B") as [->|_]; split; congruence.
Qed.

Lemma parseGateNumber_cases (v : JsVal) :
  match v with
  | JNum _ | JBool _ => parseGateNumber v = Throw TypeError
  | _ => ∃ n, parseGateNumber v = Normal n
  end.
Proof.
  destruct v as [| |b|n|s]; simpl; eauto.
  unfold parseGateNumber, optReplaceG, cbind, jsOr. simpl.
  destruct (negb _); eauto.
Qed.

Lemma parseGateRow_cases (row : Row) (index : nat) :
  if idCellParses row
  then ∃ g, parseGateRow row index = Normal g
  else parseGateRow row index = Throw TypeError.
Proof.
  pose proof (parseGateNumber_cases (getCellValue row 0)) as Hn.
  assert (Hshape : idCellParses row
                   = match getCellValue row 0 with
                     | JNum _ | JBool _ => false
                     | _ => true
                     end).
  { unfold idCellParses, getCellValue.
    destruct (cellAt row 0) as [| |b|n|s]; try reflexivity. simpl.
    destruct (String.eqb s ""); simpl; [done|]. by destruct (String.eqb s "B"). }
  rewrite Hshape. unfold parseGateRow.
  destruct (getCellValue row 0) as [| |b|n|s].
  - destruct Hn as [n ->]. unfold cbind. eauto.
  - destruct Hn as [n ->]. unfold cbind. eauto.
  - by rewrite Hn.
  - by rewrite Hn.
  - destruct Hn as [n ->]. unfold cbind. eauto.
Qed.

(** X1.  [parseGateRow] throws exactly when the gate-number cell (column
    0) holds a number or a boolean, and what it throws is a [TypeError];
    every other row, an empty or short one included, gives a record. *)
Theorem parseGateRow_throws_iff_id_not_text (row : Row) (index : nat) :
  (∀ e, parseGateRow row index = Throw e → e = TypeError)
  ∧ ((∃ e, parseGateRow row index = Throw e) ↔
       (∃ n, cellAt row 0 = JNum n) ∨ (∃ b, cellAt row 0 = JBool b))
  ∧ ((∃ g, parseGateRow row index = Normal g) ↔ idCellParses row = true)
  ∧ ∃ g, parseGateRow [] index = Normal g.
Proof.
  pose proof (parseGateRow_cases row index) as Hc.
  assert (Hid : idCellParses row = false ↔
                (∃ n, cellAt row 0 = JNum n) ∨ (∃ b, cellAt row 0 = JBool b)).
  { unfold idCellParses. destruct (cellAt row 0) as [| |b|n|s]; split;
      try done; eauto; intros [[x Hx]|[x Hx]]; done. }
  split; [|split; [|split]].
  - intros e He. destruct (idCellParses row); [destruct Hc|]; congruence.
  - rewrite <- Hid. destruct (idCellParses row); split; try done; eauto.
    intros [e He]. destruct Hc. congruence.
  - destruct (idCellParses row); split; try done. intros [g Hg]. congruence.
  - exact (parseGateRow_cases [] index).
Qed.

(** X2.  A column at or past the end of a row reads as an empty cell: no
    exception, [getCellValue] gives [null], every status slot of the record
    fed from such a column holds "B" (in [skirtStatuses], and in
    [jointStatuses] whether or not the record is reversed: position [k] of
    a reversed record is fed from column [17 + (20 - k)]), and the scalar
    field of the record holds [null] (the number 0 for [rev_flag] and
    [skirt_qty]). *)
Theorem column_past_row_end_is_empty (row : Row) (index : nat) (g : Gate) (c : nat) :
  parseGateRow row index = Normal g → length row ≤ c →
  getCellValue row c = JNull
  ∧ slotOf row c = JStr "B"
  ∧ (∀ v, scalarField g c = Some v →
       v = if Nat.eqb c 2 || Nat.eqb c 14 then JNum (numOfZ 0) else JNull)
  ∧ (∀ k, k < 20 → c ≤ 38 + k → skirtStatuses g !! k = Some (JStr "B"))
  ∧ (∀ k, k < 20 → isReverse g = false → c ≤ 17 + k →
       jointStatuses g !! k = Some (JStr "B"))
  ∧ (∀ k, 1 ≤ k ≤ 19 → isReverse g = true → c ≤ 17 + (20 - k) →
       jointStatuses g !! k = Some (JStr "B"))
  ∧ (∀ k src, k < 20 → jointSource g k = Some src → c ≤ src →
       jointStatuses g !! k = Some (JStr "B")).
Proof.
  intros Hp Hc.
  assert (Hempty : ∀ c', c ≤ c' → emptyCell (cellAt row c')).
  { intros c' Hc'. right. right. apply cellAt_past_end. lia. }
  destruct (getCellValue_empty row c (Hempty c (le_n _))) as [Hget Hslot].
  pose proof (parseGateRow_slots _ _ _ Hp) as (_ & _ & Hskirt & Hjoint & Hrev).
  split; [done|]. split; [done|]. split; [|split; [|split; [|split]]].
  - intros v Hv. rewrite (parseGateRow_scalars _ _ _ _ _ Hp Hv), Hget.
    by destruct (Nat.eqb c 2 || Nat.eqb c 14).
  - intros k Hk Hck. rewrite Hskirt by done. f_equal.
    by apply getCellValue_empty, Hempty.
  - intros k Hk Hr Hck. rewrite (Hjoint Hr) by done. f_equal.
    by apply getCellValue_empty, Hempty.
  - intros k Hk Hr Hck. destruct (Hrev Hr) as [_ Hlk]. rewrite Hlk by done.
    f_equal. by apply getCellValue_empty, Hempty.
  - intros k src Hk Hsrc Hck.
    rewrite (parseGateRow_joint_source _ _ _ _ _ Hp Hk Hsrc). f_equal.
    by apply getCellValue_empty, Hempty.
Qed.

Lemma column_past_row_end_is_empty_witness :
  parseGateRow sampleReverseRow 0 = Normal sampleReverseGate
  ∧ length sampleReverseRow ≤ 20
  ∧ getCellValue sampleReverseRow 20 = JNull
  ∧ slotOf sampleReverseRow 20 = JStr "B"
  ∧ (∀ k, 1 ≤ k ≤ 19 → isReverse sampleReverseGate = true → 20 ≤ 17 + (20 - k) →
       jointStatuses sampleReverseGate !! k = Some (JStr "B")).
Proof.
  split; [reflexivity|]. split; [vm_compute; lia|].
  destruct (column_past_row_end_is_empty sampleReverseRow 0 sampleReverseGate 20)
    as (H1 & H2 & _ & _ & _ & H3 & _); [reflexivity | vm_compute; lia |]. auto.
Defined.

Lemma getCellValue_cell_eq (row row' : Row) (c : nat) :
  cellAt row c = cellAt row' c → getCellValue row c = getCellValue row' c.
Proof. unfold getCellValue. by intros ->. Qed.

Lemma pushStatuses_ext (row row' : Row) (from count : nat) :
  (∀ c, from ≤ c < from + count → getCellValue row c = getCellValue row' c) →
  pushStatuses row from count [] = pushStatuses row' from count [].
Proof.
  intros Heq. rewrite !pushStatuses_spec. f_equal.
  apply list_fmap_ext. intros i c Hc. apply lookup_seq in Hc as [-> Hi].
  unfold slotOf. rewrite Heq by lia. reflexivity.
Qed.

Lemma slice1_pushStatuses (row : Row) (from count : nat) :
  slice1 (pushStatuses row from (S count) []) = pushStatuses row (S from) count [].
Proof. by rewrite !pushStatuses_spec. Qed.

(** Two rows with the same cells in columns 0..57, column 17 apart when
    the reverse flag is the number 1, give the same record. *)
Lemma parseGateRow_cong (row row' : Row) (index : nat) :
  (∀ c, c < 58 → c ≠ 17 → getCellValue row c = getCellValue row' c) →
  (strictEq (jsOr (getCellValue row 2) (JNum (numOfZ 0))) (JNum (numOfZ 1)) = false →
   getCellValue row 17 = getCellValue row' 17) →
  parseGateRow row index = parseGateRow row' index.
Proof.
  intros H H17. unfold parseGateRow.
  change (37 - 17) with 20. change (58 - 38) with 20.
  rewrite <- (H 0), <- (H 1), <- (H 2), <- (H 3), <- (H 4), <- (H 5), <- (H 6),
    <- (H 7), <- (H 8), <- (H 9), <- (H 10), <- (H 11), <- (H 12), <- (H 13),
    <- (H 14), <- (H 15), <- (H 16), <- (H 37) by lia.
  rewrite <- (pushStatuses_ext row row' 38 20) by (intros; apply H; lia).
  destruct (strictEq (jsOr (getCellValue row 2) (JNum (numOfZ 0))) (JNum (numOfZ 1)))
    eqn:Hr.
  - rewrite !slice1_pushStatuses.
    rewrite <- (pushStatuses_ext row row' 18 19) by (intros; apply H; lia).
    reflexivity.
  - rewrite <- (pushStatuses_ext row row' 17 20); [reflexivity|].
    intros c Hc. destruct (decide (c = 17)) as [->|Hne]; [by apply H17 | apply H; lia].
Qed.

(** X3.  [parseGateRow] reads columns 0 to 57 only: the record of a row is
    the record of its first 58 cells, and cells appended after column 57
    change nothing. *)
Theorem parseGateRow_reads_58_columns (row extra : Row) (index : nat) :
  parseGateRow (take 58 row) index = parseGateRow row index
  ∧ (58 ≤ length row → parseGateRow (row ++ extra) index = parseGateRow row index).
Proof.
  split.
  - apply parseGateRow_cong.
    + intros c Hc _. apply getCellValue_cell_eq. unfold cellAt, Row in *.
      by rewrite lookup_take_lt.
    + intros _. apply getCellValue_cell_eq. unfold cellAt, Row in *.
      by rewrite lookup_take_lt by lia.
  - intros Hlen. apply parseGateRow_cong.
    + intros c Hc _. apply getCellValue_cell_eq. unfold cellAt, Row in *.
      by rewrite lookup_app_l by lia.
    + intros _. apply getCellValue_cell_eq. unfold cellAt, Row in *.
      by rewrite lookup_app_l by lia.
Qed.

(** X4.  A scalar field keeps its cell: whenever the cell is not empty
    (not the empty string, [null] or [undefined]) the field holds the
    cell's value unchanged, the number 0 and [false] included, except that
    [rev_flag] and [skirt_qty] turn a falsy cell into the number 0. *)
Theorem scalar_field_keeps_nonempty_cell (row : Row) (index : nat) (g : Gate)
    (c : nat) (v : JsVal) :
  parseGateRow row index = Normal g → scalarField g c = Some v →
  ¬ emptyCell (cellAt row c) →
  (c ≠ 2 → c ≠ 14 → v = cellAt row c)
  ∧ (truthy (cellAt row c) = true → v = cellAt row c)
  ∧ (c = 2 ∨ c = 14 → truthy (cellAt row c) = false → v = JNum (numOfZ 0)).
Proof.
  intros Hp Hv Hne. rewrite (parseGateRow_scalars _ _ _ _ _ Hp Hv).
  rewrite (getCellValue_nonempty _ _ Hne). unfold jsOr.
  split; [|split].
  - intros H2 H14. apply Nat.eqb_neq in H2, H14. by rewrite H2, H14.
  - intros ->. by destruct (Nat.eqb c 2 || Nat.eqb c 14).
  - intros [-> | ->] ->; reflexivity.
Qed.

Lemma scalar_field_keeps_nonempty_cell_witness :
  parseGateRow sampleStringFlagRow 1 = Normal sampleStringFlagGate
  ∧ scalarField sampleStringFlagGate 2 = Some (JStr "1")
  ∧ ¬ emptyCell (cellAt sampleStringFlagRow 2)
  ∧ (truthy (cellAt sampleStringFlagRow 2) = true →
     JStr "1" = cellAt sampleStringFlagRow 2).
Proof.
  assert (Hne : ¬ emptyCell (cellAt sampleStringFlagRow 2)).
  { intros [H|[H|H]]; discriminate H. }
  split; [reflexivity|]. split; [reflexivity|]. split; [exact Hne|].
  apply (scalar_field_keeps_nonempty_cell sampleStringFlagRow 1 sampleStringFlagGate
           2 (JStr "1")); [reflexivity | reflexivity | exact Hne].
Defined.

Lemma strictEq_one_truthy (v : JsVal) :
  strictEq v (JNum (numOfZ 1)) = true → truthy v = true.
Proof.
  destruct v as [| |b|[|q]|s]; try done.
  unfold strictEq, numEq, numOfZ, truthy. intros H1.
  destruct (Qeq_bool q 0) eqn:H0; [|done].
  apply Qeq_bool_iff in H1, H0. rewrite H0 in H1. discriminate H1.
Qed.

(** X5.  A record is reversed exactly when the rev-flag cell (column 2)
    is strictly equal to the number 1: the string "1", [true], 2 or an empty
    cell never reverse.  The stored [rev_flag] is the cell itself when it
    is truthy and the number 0 otherwise. *)
Theorem reversed_iff_flag_cell_is_number_one (row : Row) (index : nat) (g : Gate) :
  parseGateRow row index = Normal g →
  isReverse g = strictEq (cellAt row 2) (JNum (numOfZ 1))
  ∧ rev_flag g = (if truthy (cellAt row 2) then cellAt row 2 else JNum (numOfZ 0)).
Proof.
  intros Hp. pose proof (parseGateRow_fields _ _ _ Hp)
    as (_ & _ & _ & Hflag & Hrev & _).
  assert (Hf : rev_flag g
               = if truthy (cellAt row 2) then cellAt row 2 else JNum (numOfZ 0)).
  { rewrite Hflag. unfold jsOr. destruct (truthy (cellAt row 2)) eqn:Ht.
    - rewrite getCellValue_truthy by done. by rewrite Ht.
    - by rewrite getCellValue_falsy. }
  split; [|done]. rewrite Hrev, Hf.
  destruct (truthy (cellAt row 2)) eqn:Ht; [done|].
  destruct (strictEq (cellAt row 2) (JNum (numOfZ 1))) eqn:H1; [|done].
  apply strictEq_one_truthy in H1. congruence.
Qed.

Lemma reversed_iff_flag_cell_is_number_one_witness :
  parseGateRow sampleReverseRow 0 = Normal sampleReverseGate
  ∧ isReverse sampleReverseGate = strictEq (cellAt sampleReverseRow 2) (JNum (numOfZ 1)).
Proof.
  split; [reflexivity|].
  apply (reversed_iff_flag_cell_is_number_one sampleReverseRow 0 sampleReverseGate).
  reflexivity.
Defined.

(** X6.  On a reversed row the cell of column 17 is discarded: two rows
    that differ in column 17 only give the same record when the first is
    reversed. *)
Theorem reversed_record_ignores_column_17 (row row' : Row) (index : nat) (g : Gate) :
  (∀ c, c ≠ 17 → cellAt row c = cellAt row' c) →
  parseGateRow row index = Normal g → isReverse g = true →
  parseGateRow row' index = Normal g.
Proof.
  intros Hcells Hp Hr. rewrite <- Hp. symmetry. apply parseGateRow_cong.
  - intros c _ Hc. by apply getCellValue_cell_eq, Hcells.
  - intros Hnot. pose proof (parseGateRow_fields _ _ _ Hp)
      as (_ & _ & _ & Hflag & Hrev & _).
    rewrite Hrev, Hflag in Hr. congruence.
Qed.

Lemma reversed_record_ignores_column_17_witness :
  (∀ c, c ≠ 17 → cellAt sampleReverseRow c = cellAt (<[17 := JStr "Z"]> sampleReverseRow) c)
  ∧ parseGateRow sampleReverseRow 0 = Normal sampleReverseGate
  ∧ isReverse sampleReverseGate = true
  ∧ parseGateRow (<[17 := JStr "Z"]> sampleReverseRow) 0 = Normal sampleReverseGate.
Proof.
  assert (Hcells : ∀ c, c ≠ 17 →
            cellAt sampleReverseRow c = cellAt (<[17 := JStr "Z"]> sampleReverseRow) c).
  { intros c Hc. unfold cellAt, Row in *. by rewrite list_lookup_insert_ne. }
  split; [exact Hcells|]. split; [reflexivity|]. split; [reflexivity|].
  apply (reversed_record_ignores_column_17 sampleReverseRow _ 0 sampleReverseGate);
    [exact Hcells | reflexivity | reflexivity].
Defined.

(** ** How many records a build gives, and where *)

Lemma parseOrNull_is_Some (i : nat) (row : Row) :
  is_Some (parseOrNull i row) ↔ idCellParses row = true.
Proof.
  pose proof (parseGateRow_cases row i) as Hc. unfold parseOrNull.
  destruct (idCellParses row).
  - destruct Hc as [g ->]. split; eauto.
  - rewrite Hc. split; [intros [g Hg]; done | done].
Qed.

Lemma parsed_from_count (off : nat) (rows : list Row) :
  length (filterNotNull (imap (λ i, parseOrNull (off + i)) rows))
  = length (List.filter idCellParses rows).
Proof.
  revert off. induction rows as [|row rows IH]; intros off; [done|].
  cbn [imap List.filter].
  assert (Hext : imap ((λ i, parseOrNull (off + i)) ∘ S) rows
                 = imap (λ i, parseOrNull (S off + i)) rows).
  { apply imap_ext. intros i x _. simpl. f_equal. lia. }
  rewrite Hext. pose proof (parseOrNull_is_Some (off + 0) row) as Hs.
  destruct (parseOrNull (off + 0) row) as [g|], (idCellParses row);
    cbn [filterNotNull length].
  - f_equal. apply IH.
  - destruct Hs as [Hs _]. by specialize (Hs (mk_is_Some _ _ eq_refl)).
  - destruct Hs as [_ Hs]. by destruct (Hs eq_refl).
  - apply IH.
Qed.

Lemma filter_length_all {A} (f : A → bool) (l : list A) :
  length (List.filter f l) ≤ length l
  ∧ (length (List.filter f l) = length l ↔ Forall (λ x, f x = true) l).
Proof.
  induction l as [|x l [IHle IH]]; simpl.
  - split; [lia|]. split; [constructor | done].
  - destruct (f x) eqn:Hx; simpl.
    + split; [lia|]. split.
      * intros Hlen. constructor; [done|]. apply IH. lia.
      * intros Hall. inversion Hall; subst. f_equal. by apply IH.
    + split; [lia|]. split; [lia|].
      intros Hall. inversion Hall; subst. congruence.
Qed.

Lemma filterNotNull_all_Some {A} (arr : list (option A)) :
  Forall is_Some arr → Some <$> filterNotNull arr = arr.
Proof.
  induction 1 as [|o arr [b ->] _ IH]; [done|].
  cbn [filterNotNull]. rewrite fmap_cons. by rewrite IH.
Qed.

(** X7.  The number of records of a build is the number of data rows
    whose gate-number cell is neither a number nor a boolean; it equals the
    number of data rows exactly when no row has such a cell. *)
Theorem record_count_is_rows_with_text_id (this : ExcelParser) (header : Row)
    (rows : list Row) :
  ∃ gs, snd (loadExcel this (header :: rows)) = Normal gs
    ∧ length gs = length (List.filter idCellParses rows)
    ∧ (length gs = length rows ↔ Forall (λ row, idCellParses row = true) rows).
Proof.
  exists (filterNotNull (imap parseOrNull rows)). split; [reflexivity|].
  assert (Hcount : length (filterNotNull (imap parseOrNull rows))
                   = length (List.filter idCellParses rows)).
  { exact (parsed_from_count 0 rows). }
  split; [done|]. rewrite Hcount. apply filter_length_all.
Qed.

(** X8.  When no data row holds a number or a boolean in its gate-number
    cell, the build gives one record per data row, at the row's position
    and with [rowIndex] equal to that position. *)
Theorem one_record_per_row_when_ids_are_text (this : ExcelParser) (header : Row)
    (rows : list Row) (gs : list Gate) :
  Forall (λ row, idCellParses row = true) rows →
  snd (loadExcel this (header :: rows)) = Normal gs →
  length gs = length rows
  ∧ ∀ i row, rows !! i = Some row →
      ∃ g, gs !! i = Some g ∧ parseGateRow row i = Normal g ∧ rowIndex g = i.
Proof.
  intros Hall Hload.
  assert (Hgs : gs = filterNotNull (imap parseOrNull rows)).
  { destruct (loadExcel this (header :: rows)) as [this' c] eqn:He.
    simpl in Hload. subst c. apply loadExcel_Normal in He as (_ & He & _).
    exact He. }
  assert (Hsome : Some <$> gs = imap parseOrNull rows).
  { rewrite Hgs. apply filterNotNull_all_Some. apply Forall_lookup_2.
    intros i o Ho. rewrite list_lookup_imap in Ho.
    destruct (rows !! i) as [row|] eqn:Hrow; simpl in Ho; [|done].
    injection Ho as <-. apply parseOrNull_is_Some.
    rewrite Forall_lookup in Hall. by apply (Hall i). }
  split.
  - rewrite <- (length_fmap Some gs), Hsome. apply length_imap.
  - intros i row Hrow.
    assert (Hi : (Some <$> gs) !! i = Some (parseOrNull i row)).
    { by rewrite Hsome, list_lookup_imap, Hrow. }
    rewrite list_lookup_fmap in Hi.
    destruct (gs !! i) as [g|] eqn:Hg; simpl in Hi; [|done].
    injection Hi as Hi. symmetry in Hi. apply parseOrNull_Some in Hi.
    exists g. split; [done|]. split; [done|].
    by destruct (parseGateRow_fields _ _ _ Hi) as [Hidx _].
Qed.

Lemma one_record_per_row_when_ids_are_text_witness :
  Forall (λ row, idCellParses row = true) [sampleReverseRow; sampleStringFlagRow]
  ∧ snd (loadExcel newParser (sampleHeader :: [sampleReverseRow; sampleStringFlagRow]))
    = Normal [sampleReverseGate; sampleStringFlagGate]
  ∧ length [sampleReverseGate; sampleStringFlagGate]
    = length [sampleReverseRow; sampleStringFlagRow].
Proof.
  assert (Hall : Forall (λ row, idCellParses row = true)
                   [sampleReverseRow; sampleStringFlagRow]).
  { repeat constructor. }
  split; [exact Hall|]. split; [exact sampleTable_build|].
  apply (one_record_per_row_when_ids_are_text newParser sampleHeader
           [sampleReverseRow; sampleStringFlagRow]
           [sampleReverseGate; sampleStringFlagGate] Hall sampleTable_build).
Defined.

(** ** Gate ids and [getGateByNumber] *)

Lemma parseGateRow_id_shape (row : Row) (index : nat) (g : Gate) :
  parseGateRow row index = Normal g →
  mcn_no g = JNull ∨ ∃ s, mcn_no g = JStr s ∧ s ≠ "".
Proof.
  intros Hp. pose proof (parseGateRow_fields _ _ _ Hp)
    as (_ & Hid & _ & _ & _ & Hnum & _).
  pose proof (parseGateNumber_cases (getCellValue row 0)) as Hc.
  destruct (getCellValue_range row 0) as [Hu He]. rewrite Hid.
  destruct (getCellValue row 0) as [| |b|n|s]; try done; try congruence; auto.
  right. exists s. split; [done | congruence].
Qed.

Lemma strictEq_id_refl (v : JsVal) :
  (v = JNull ∨ ∃ s, v = JStr s ∧ s ≠ "") → strictEq v v = true.
Proof. intros [->|(s & -> & _)]; [done|]. simpl. apply String.eqb_refl. Qed.

Lemma strictEq_id_eq (v w : JsVal) :
  (v = JNull ∨ ∃ s, v = JStr s ∧ s ≠ "") → strictEq w v = true → w = v.
Proof.
  intros [->|(s & -> & _)]; destruct w as [| |b|n|t]; simpl; try done.
  intros H. apply String.eqb_eq in H. congruence.
Qed.

Lemma find_first {A} (f : A → bool) (l : list A) (x : A) :
  List.find f l = Some x →
  ∃ i, l !! i = Some x ∧ f x = true
       ∧ ∀ j y, j < i → l !! j = Some y → f y = false.
Proof.
  induction l as [|a l IH]; simpl; [done|].
  destruct (f a) eqn:Ha.
  - intros [= <-]. exists 0. split; [done|]. split; [done|]. intros; lia.
  - intros Hfind. destruct (IH Hfind) as (i & Hi & Hx & Hbefore).
    exists (S i). split; [done|]. split; [done|].
    intros [|j] y Hj Hy; simpl in Hy; [congruence|]. apply (Hbefore j); [lia|done].
Qed.

Lemma find_None_iff {A} (f : A → bool) (l : list A) :
  List.find f l = None ↔ ∀ x, x ∈ l → f x = false.
Proof.
  induction l as [|a l IH]; simpl.
  - split; [intros _ x Hx; inversion Hx | done].
  - destruct (f a) eqn:Ha.
    + split; [done|]. intros H. specialize (H a (list_elem_of_here _ _)). congruence.
    + rewrite IH. split.
      * intros H x Hx. apply elem_of_cons in Hx as [->|Hx]; auto.
      * intros H x Hx. apply H. by apply list_elem_of_further.
Qed.

(** X9.  [getGateByNumber] returns the first gate, in the order of
    [gates], whose [mcn_no] is strictly equal to the argument, and [null]
    exactly when no gate's [mcn_no] is. *)
Theorem getGateByNumber_first_match (this : ExcelParser) (id : JsVal) :
  (∀ g, getGateByNumber this id = Some g →
     ∃ i, gates this !! i = Some g
          ∧ strictEq (mcn_no g) id = true
          ∧ ∀ j g', j < i → gates this !! j = Some g' →
              strictEq (mcn_no g') id = false)
  ∧ (getGateByNumber this id = None ↔
       ∀ g, g ∈ gates this → strictEq (mcn_no g) id = false).
Proof.
  unfold getGateByNumber. split.
  - intros g Hfind. apply (find_first _ _ _ Hfind).
  - apply find_None_iff.
Qed.

(** X10.  In every record of a build the gate id [mcn_no] is [null] or a
    non-empty string, and no scalar field is [undefined] or the empty
    string. *)
Theorem built_ids_are_text_or_null (this : ExcelParser) (table : list Row)
    (gs : list Gate) (g : Gate) :
  snd (loadExcel this table) = Normal gs → g ∈ gs →
  (mcn_no g = JNull ∨ ∃ s, mcn_no g = JStr s ∧ s ≠ "")
  ∧ ∀ c v, scalarField g c = Some v → v ≠ JUndefined ∧ v ≠ JStr "".
Proof.
  intros Hload Hg.
  destruct (loadExcel_snd_gate_row _ _ _ _ Hload Hg) as (row & _ & Hp).
  split; [by apply (parseGateRow_id_shape row (rowIndex g))|].
  intros c v Hv. rewrite (parseGateRow_scalars _ _ _ _ _ Hp Hv).
  destruct (getCellValue_range row c) as [Hu He].
  destruct (Nat.eqb c 2 || Nat.eqb c 14); [|done].
  unfold jsOr. destruct (truthy (getCellValue row c)); [done|]. split; done.
Qed.

Lemma built_ids_are_text_or_null_witness :
  snd (loadExcel newParser sampleTable) = Normal [sampleReverseGate; sampleStringFlagGate]
  ∧ sampleReverseGate ∈ [sampleReverseGate; sampleStringFlagGate]
  ∧ (mcn_no sampleReverseGate = JNull
     ∨ ∃ s, mcn_no sampleReverseGate = JStr s ∧ s ≠ "").
Proof.
  split; [sample_build|]. split; [sample_build|].
  apply (built_ids_are_text_or_null newParser sampleTable
           [sampleReverseGate; sampleStringFlagGate] sampleReverseGate); sample_build.
Defined.

Lemma parsed_sorted (rows : list Row) :
  StronglySorted lt (rowIndex <$> filterNotNull (imap parseOrNull rows)).
Proof. exact (proj2 (parsed_from_sorted 0 rows)). Qed.

(** X11.  After a successful build, looking a record up by its own gate
    id never gives [null]: it gives a record with that id, the first one in
    row order.  Looking up [undefined], the empty string, a number or a
    boolean always gives [null]. *)
Theorem getGateByNumber_on_built_set (this this' : ExcelParser) (table : list Row)
    (gs : list Gate) :
  loadExcel this table = (this', Normal gs) →
  (∀ g, g ∈ gs →
     ∃ g', getGateByNumber this' (mcn_no g) = Some g'
           ∧ g' ∈ gs ∧ mcn_no g' = mcn_no g ∧ rowIndex g' ≤ rowIndex g)
  ∧ (∀ id, id = JUndefined ∨ id = JStr "" ∨ (∃ n, id = JNum n) ∨ (∃ b, id = JBool b) →
       getGateByNumber this' id = None).
Proof.
  intros Hload.
  assert (Hshape : ∀ g, g ∈ gs → mcn_no g = JNull ∨ ∃ s, mcn_no g = JStr s ∧ s ≠ "").
  { intros g Hg. destruct (loadExcel_gate_row _ _ _ _ _ Hload Hg) as (row & _ & Hp).
    by apply (parseGateRow_id_shape row (rowIndex g)). }
  pose proof Hload as Hl. apply loadExcel_Normal in Hl as (_ & Hgs & ->).
  unfold getGateByNumber. cbn [gates]. split.
  - intros g Hg. pose proof (Hshape g Hg) as Hid.
    destruct (List.find (λ gate, strictEq (mcn_no gate) (mcn_no g)) gs) as [g'|] eqn:Hf.
    + destruct (find_first _ _ _ Hf) as (i & Hi & Hmatch & Hbefore).
      exists g'. split; [done|]. split; [by eapply list_elem_of_lookup_2|].
      split; [by apply strictEq_id_eq|].
      apply list_elem_of_lookup_1 in Hg as [j Hj].
      destruct (decide (j < i)) as [Hlt|Hge].
      { pose proof (Hbefore j g Hlt Hj) as Hc.
        rewrite strictEq_id_refl in Hc by done. discriminate Hc. }
      destruct (decide (i = j)) as [->|Hne]; [assert (g' = g) by congruence; subst; lia|].
      assert (Hs : StronglySorted lt (rowIndex <$> gs)).
      { rewrite Hgs. apply parsed_sorted. }
      assert (rowIndex g' < rowIndex g); [|lia].
      apply (StronglySorted_lookup_lt _ i j _ _ Hs); [lia| |];
        by rewrite list_lookup_fmap, ?Hi, ?Hj.
    + exfalso. apply find_None_iff with (x := g) in Hf; [|done].
      by rewrite strictEq_id_refl in Hf.
  - intros id Hid. apply find_None_iff. intros g Hg.
    destruct (Hshape g Hg) as [->|(s & -> & Hs)];
      destruct Hid as [->|[->|[[n ->]|[b ->]]]]; simpl; try done.
    by apply String.eqb_neq.
Qed.

Lemma getGateByNumber_on_built_set_witness :
  loadExcel newParser sampleTable
  = ({| rawData := Some sampleTable;
        gates := [sampleReverseGate; sampleStringFlagGate];
        isLoaded := true |},
     Normal [sampleReverseGate; sampleStringFlagGate])
  ∧ getGateByNumber (fst (loadExcel newParser sampleTable)) JUndefined = None.
Proof.
  split; [vm_compute; reflexivity|].
  apply (getGateByNumber_on_built_set newParser _ sampleTable
           [sampleReverseGate; sampleStringFlagGate]); [vm_compute; reflexivity | auto].
Defined.

Example find_sample_gate_by_id :
  getGateByNumber (fst (loadExcel newParser sampleTable)) (JStr "G21")
  = Some sampleStringFlagGate
  ∧ getGateByNumber (fst (loadExcel newParser sampleTable)) (JStr "G05") = None.
Proof. split; reflexivity. Qed.

(** ** Groups *)

Lemma filter_sublist_bool {A} (f : A → bool) (l : list A) :
  sublist (List.filter f l) l.
Proof.
  induction l as [|x l IH]; simpl; [constructor|].
  destruct (f x); by constructor.
Qed.

Lemma filter_none {A} (f : A → bool) (l : list A) :
  (∀ x, f x = false) → List.filter f l = [].
Proof. intros Hf. induction l as [|x l IH]; simpl; [done|]. by rewrite Hf. Qed.

Lemma numEq_trans (a b c : Num) :
  numEq a b = true → numEq a c = true → numEq b c = true.
Proof.
  destruct a as [|x], b as [|y], c as [|z]; simpl; try done.
  intros H1 H2. apply Qeq_bool_iff in H1, H2. apply Qeq_bool_iff.
  by rewrite <- H1, <- H2.
Qed.

(** X12.  [filterByMod] with a truthy argument returns a sub-sequence of
    [gates] in the same order; it returns nothing when the argument is not
    a number (the string "1", [true]); it never returns a record whose
    group index is [NaN]; and no record is returned for two truthy numbers
    that differ. *)
Theorem filterByMod_groups (this : ExcelParser) (v : JsVal) :
  sublist (filterByMod this v) (gates this)
  ∧ (truthy v = true → (∀ n, v ≠ JNum n) → filterByMod this v = [])
  ∧ (truthy v = true → ∀ g, g ∈ filterByMod this v →
       ∃ q q', mod_ g = Fin q ∧ v = JNum (Fin q') ∧ Qeq q q')
  ∧ (∀ a b g, truthy (JNum a) = true → truthy (JNum b) = true →
       g ∈ filterByMod this (JNum a) → g ∈ filterByMod this (JNum b) →
       numEq a b = true).
Proof.
  split; [|split; [|split]].
  - unfold filterByMod. destruct (negb (truthy v)); [done | apply filter_sublist_bool].
  - intros Hv Hnum. unfold filterByMod. rewrite Hv. simpl.
    apply filter_none. intros g. destruct v as [| |b|n|s]; try done.
    by destruct (Hnum n).
  - intros Hv g Hg. unfold filterByMod in Hg. rewrite Hv in Hg. simpl in Hg.
    apply list_elem_of_In, filter_In in Hg as [_ Hg].
    destruct v as [| |b|[|q']|s], (mod_ g) as [|q]; simpl in Hg; try done.
    exists q, q'. split; [done|]. split; [done|]. by apply Qeq_bool_iff.
  - intros a b g Ha Hb Hga Hgb. unfold filterByMod in Hga, Hgb.
    rewrite Ha in Hga. rewrite Hb in Hgb. simpl in Hga, Hgb.
    apply list_elem_of_In, filter_In in Hga as [_ Hga].
    apply list_elem_of_In, filter_In in Hgb as [_ Hgb].
    simpl in Hga, Hgb. by apply (numEq_trans (mod_ g)).
Qed.

Lemma numEq_small_distinct (n : Num) :
  (numEq n (numOfZ 1) && numEq n (numOfZ 2) = false)
  ∧ (numEq n (numOfZ 1) && numEq n (numOfZ 3) = false)
  ∧ (numEq n (numOfZ 2) && numEq n (numOfZ 3) = false).
Proof.
  assert (H : ∀ a b, numEq (numOfZ a) (numOfZ b) = false →
            numEq n (numOfZ a) && numEq n (numOfZ b) = false).
  { intros a b Hab. destruct (numEq n (numOfZ a)) eqn:Ha; [|done].
    destruct (numEq n (numOfZ b)) eqn:Hb; [|done].
    pose proof (numEq_trans _ _ _ Ha Hb). congruence. }
  split; [|split]; by apply H.
Qed.

Lemma group_counts_sum (gs : list Gate) :
  length (List.filter (λ g, numEq (mod_ g) (numOfZ 1)) gs)
  + length (List.filter (λ g, numEq (mod_ g) (numOfZ 2)) gs)
  + length (List.filter (λ g, numEq (mod_ g) (numOfZ 3)) gs)
  = length (List.filter (λ g, inGroups123 (mod_ g)) gs).
Proof.
  induction gs as [|g gs IH]; [done|]. cbn [List.filter]. unfold inGroups123 at 1.
  destruct (numEq_small_distinct (mod_ g)) as (H12 & H13 & H23).
  destruct (numEq (mod_ g) (numOfZ 1)), (numEq (mod_ g) (numOfZ 2)),
    (numEq (mod_ g) (numOfZ 3)); simpl in *; try done; lia.
Qed.

Section SummaryCounts.

Variable numToString : Num → string.

(** X13.  In the summary of a loaded parser the three group counts add
    up to the number of records whose group index is 1, 2 or 3: their sum
    never exceeds the total, and equals it exactly when every record is in
    one of the three groups (a record with group index 0, 4 or [NaN] is in
    none).  The reverse count never exceeds the total either. *)
Theorem summary_group_counts (this : ExcelParser) :
  isLoaded this = true →
  ∃ s, getSummary numToString this = SummaryObject s
    ∧ mod1 s + mod2 s + mod3 s
      = length (List.filter (λ g, inGroups123 (mod_ g)) (gates this))
    ∧ mod1 s + mod2 s + mod3 s ≤ totalGates s
    ∧ (mod1 s + mod2 s + mod3 s = totalGates s ↔
         Forall (λ g, inGroups123 (mod_ g) = true) (gates this))
    ∧ reverseCount s ≤ totalGates s.
Proof.
  intros Hl. unfold getSummary. rewrite Hl. simpl negb. cbv iota.
  eexists. split; [reflexivity|].
  cbn [mod1 mod2 mod3 totalGates reverseCount].
  assert (Hsum : length (filterByMod this (JNum (numOfZ 1)))
                 + length (filterByMod this (JNum (numOfZ 2)))
                 + length (filterByMod this (JNum (numOfZ 3)))
                 = length (List.filter (λ g, inGroups123 (mod_ g)) (gates this))).
  { rewrite <- group_counts_sum. reflexivity. }
  rewrite Hsum.
  destruct (filter_length_all (λ g, inGroups123 (mod_ g)) (gates this)) as [Hle Hiff].
  split; [done|]. split; [done|]. split; [done|].
  apply (filter_length_all isReverse).
Qed.

Lemma countStatus_lookup (obj : gmap string PropVal) (g : Gate) (k : string) :
  inheritedKey (statusKey numToString g) = false →
  countStatus numToString obj g !! k
  = if String.eqb (statusKey numToString g) k
    then Some (orZeroPlusOne (obj !! k))
    else obj !! k.
Proof.
  intros Hk. unfold countStatus, setProp, getProp.
  rewrite (inheritedKey_proto _ Hk), Hk.
  destruct (String.eqb_spec (statusKey numToString g) k) as [->|Hne].
  - rewrite lookup_insert_eq. by destruct (obj !! k).
  - by rewrite lookup_insert_ne.
Qed.

Lemma statusCount_lookup (gs : list Gate) (k : string) :
  Forall (λ g, inheritedKey (statusKey numToString g) = false) gs →
  foldl (countStatus numToString) ∅ gs !! k
  = if Nat.eqb (countKey numToString k gs) 0 then None
    else Some (PNumber (countKey numToString k gs)).
Proof.
  induction gs as [|g gs IH] using rev_ind; intros Hall; [done|].
  apply Forall_app in Hall as [Hgs Hg]. inversion Hg as [|? ? Hkey _]; subst.
  rewrite foldl_snoc, (countStatus_lookup _ _ _ Hkey), (IH Hgs).
  unfold countKey. rewrite List.filter_app, length_app. cbn [List.filter].
  destruct (String.eqb (statusKey numToString g) k); cbn [length].
  - destruct (length (List.filter _ gs)) as [|n] eqn:Hn; simpl.
    + done.
    + do 2 f_equal; lia.
  - by rewrite Nat.add_0_r.
Qed.

(** X14.  When no status, as a property key, names a property inherited
    from [Object.prototype], the summary of a loaded parser counts under
    each key exactly the records with that key ([sts], or "Unknown" for a
    falsy [sts]): the entry is that number, and there is no entry for a key
    no record has. *)
Theorem summary_counts_each_status (this : ExcelParser) (k : string) :
  isLoaded this = true →
  Forall (λ g, inheritedKey (statusKey numToString g) = false) (gates this) →
  ∃ s, getSummary numToString this = SummaryObject s
    ∧ statusCount s !! k
      = (if Nat.eqb (countKey numToString k (gates this)) 0 then None
         else Some (PNumber (countKey numToString k (gates this)))).
Proof.
  intros Hl Hall. unfold getSummary. rewrite Hl. simpl negb. cbv iota.
  eexists. split; [reflexivity|]. cbn [statusCount].
  by apply statusCount_lookup.
Qed.

End SummaryCounts.

Lemma summary_group_counts_witness :
  isLoaded (fst (loadExcel newParser sampleTable)) = true
  ∧ ∃ s, getSummary (λ _, "n") (fst (loadExcel newParser sampleTable)) = SummaryObject s
      ∧ mod1 s + mod2 s + mod3 s ≤ totalGates s.
Proof.
  split; [reflexivity|].
  destruct (summary_group_counts (λ _, "n") (fst (loadExcel newParser sampleTable)))
    as (s & H1 & _ & H2 & _); [reflexivity|].
  exists s. auto.
Defined.

Lemma summary_counts_each_status_witness :
  isLoaded (fst (loadExcel newParser sampleStatusTable)) = true
  ∧ Forall (λ g, inheritedKey (statusKey (λ _, "n") g) = false)
      (gates (fst (loadExcel newParser sampleStatusTable)))
  ∧ ∃ s, getSummary (λ _, "n") (fst (loadExcel newParser sampleStatusTable))
         = SummaryObject s
      ∧ statusCount s !! "S" = Some (PNumber 2).
Proof.
  assert (Hall : Forall (λ g, inheritedKey (statusKey (λ _, "n") g) = false)
                   (gates (fst (loadExcel newParser sampleStatusTable)))).
  { vm_compute. repeat constructor. }
  split; [reflexivity|]. split; [exact Hall|].
  destruct (summary_counts_each_status (λ _, "n")
              (fst (loadExcel newParser sampleStatusTable)) "S")
    as (s & H1 & H2); [reflexivity | exact Hall |].
  exists s. split; [done|]. rewrite H2. reflexivity.
Defined.

(** ** Loading several tables in turn *)

Lemma loadAll_snoc (tables : list (list Row)) (table : list Row) :
  loadAll (tables ++ [table]) = fst (loadExcel (loadAll tables) table).
Proof. unfold loadAll. by rewrite foldl_snoc. Qed.

Lemma lastNonEmpty_snoc (tables : list (list Row)) (table : list Row) :
  lastNonEmpty (tables ++ [table])
  = if nonEmptyTable table then Some table else lastNonEmpty tables.
Proof.
  unfold lastNonEmpty. rewrite List.filter_app. cbn [List.filter].
  destruct (nonEmptyTable table); [apply last_snoc | by rewrite app_nil_r].
Qed.

Lemma lastNonEmpty_None (tables : list (list Row)) :
  lastNonEmpty tables = None ↔ Forall (λ table, table = []) tables.
Proof.
  induction tables as [|table tables IH] using rev_ind.
  - split; [constructor | done].
  - rewrite lastNonEmpty_snoc, Forall_app, Forall_singleton.
    destruct table as [|header rows]; simpl.
    + rewrite IH. split; [done | by intros [? _]].
    + split; [done | by intros [_ ?]].
Qed.

(** X15.  After any sequence of loads on a new parser, [rawData] is the
    last table passed, while [gates] and [isLoaded] follow the last table
    that had at least one row: the parser is loaded exactly when there was
    one, and its records are the parse of that table's data rows, however
    many empty tables (failed loads) came after it.  [getSummary] returns
    the error object exactly when every table so far was empty. *)
Theorem loads_keep_last_successful_build (tables : list (list Row)) :
  rawData (loadAll tables) = last tables
  ∧ isLoaded (loadAll tables)
    = (if lastNonEmpty tables is Some _ then true else false)
  ∧ gates (loadAll tables)
    = (if lastNonEmpty tables is Some table
       then filterNotNull (imap parseOrNull (dataRowsOf table))
       else [])
  ∧ (lastNonEmpty tables = None ↔ Forall (λ table, table = []) tables)
  ∧ ∀ numToString,
      (∃ e, getSummary numToString (loadAll tables) = ErrorObject e) ↔
      Forall (λ table, table = []) tables.
Proof.
  assert (Hinv : rawData (loadAll tables) = last tables
            ∧ isLoaded (loadAll tables)
              = (if lastNonEmpty tables is Some _ then true else false)
            ∧ gates (loadAll tables)
              = (if lastNonEmpty tables is Some table
                 then filterNotNull (imap parseOrNull (dataRowsOf table))
                 else [])).
  { induction tables as [|table tables (IHraw & IHloaded & IHgates)] using rev_ind.
    - done.
    - rewrite loadAll_snoc, lastNonEmpty_snoc, last_snoc.
      destruct table as [|header rows]; simpl; done. }
  destruct Hinv as (Hraw & Hloaded & Hgates).
  split; [done|]. split; [done|]. split; [done|].
  split; [apply lastNonEmpty_None|].
  intros numToString. rewrite <- lastNonEmpty_None. unfold getSummary.
  rewrite Hloaded. destruct (lastNonEmpty tables); simpl.
  - split; [intros [e He]; done | done].
  - split; [done | eauto].
Qed.

Example reload_with_empty_table_keeps_records (numToString : Num → string) :
  gates (loadAll [sampleTable; []]) = [sampleReverseGate; sampleStringFlagGate]
  ∧ rawData (loadAll [sampleTable; []]) = Some []
  ∧ getSummary numToString (loadAll [sampleTable; []])
    = getSummary numToString (loadAll [sampleTable]).
Proof. repeat split. Qed.
